(** * DOCSim core: a Rocq model of the deterministic race pipeline

    The development embeds the simulation core of DOCSim: seed derivation
    and the random stream ([rng.py]), birth externals with their cap
    ([breeding.py]), pool ratings ([rating.py]), field selection
    ([cpu_pool.py]), the gate draw and the race simulator
    ([race_engine.py]), the record table ([records.py]) and the conversion
    of scores into times ([race_reporting.py]).

    Conventions of the embedding.
    - Python [int] is [Z].
    - Python [float] is modelled by exact rational arithmetic ([Q]): the
      operations [+ - * /] and the comparisons are those of the rationals,
      decimal literals denote the decimal fraction they spell, and rounding
      of the binary64 format is not modelled.  [int(x)] truncates towards
      zero and [round(x)] rounds half to even, as in Python 3.
    - What the interpreter and its libraries supply ([hashlib.blake2b],
      the Mersenne Twister behind [random.Random], [math.sqrt], [math.log],
      [math.cos] and the float power) is gathered in a [Platform] record
      that every definition takes as a parameter.
    - A Python exception is an explicit [Raised] outcome.
    - Mutable objects that a call updates in place (the per-slot sets of
      used ids, the record table) are threaded as explicit state. *)

From Stdlib Require Import ZArith QArith Qround Qabs Lia Lqa Permutation.
From stdpp Require Import base option list sorting gmap strings pretty.

Local Open Scope Z_scope.

(** ** Python values and control *)

Inductive exn : Type :=
| IndexError
| KeyError
| ValueError
| ZeroDivisionError.

Inductive outcome (A : Type) : Type :=
| Returned (a : A)
| Raised (e : exn).

Arguments Returned {A} a.
Arguments Raised {A} e.

Global Instance outcome_ret : MRet outcome := fun _ a => Returned a.

Global Instance outcome_bind : MBind outcome := fun _ _ f m =>
  match m with
  | Returned a => f a
  | Raised e => Raised e
  end.

(** Comparisons of floats, as booleans. *)
Definition Qltb (x y : Q) : bool := negb (Qle_bool y x).
Definition Qleb (x y : Q) : bool := Qle_bool x y.

(** [min(a, b)] and [max(a, b)] of Python: the first argument wins a tie. *)
Definition fmin (a b : Q) : Q := if Qltb b a then b else a.
Definition fmax (a b : Q) : Q := if Qltb a b then b else a.

(** [int(x)] for a float: truncation towards zero. *)
Definition py_int (x : Q) : Z := if Qle_bool 0 x then Qfloor x else Qceiling x.

(** [round(x)] for a float: nearest integer, a tie goes to the even one. *)
Definition py_round (x : Q) : Z :=
  let f := Qfloor x in
  let d := (x - inject_Z f)%Q in
  if Qltb d (1 # 2) then f
  else if Qltb (1 # 2) d then f + 1
  else if Z.even f then f else f + 1.

(** [sum(...)] over floats and over ints. *)
Definition Qsum (l : list Q) : Q := fold_left Qplus l 0%Q.
Definition Zsum (l : list Z) : Z := fold_left Z.add l 0.

(** ** rng.py *)

(** The services of the interpreter the simulation draws on. *)
Record Platform : Type := {
  (** [hashlib.blake2b(digest_size=8)] over a byte string, the digest read
      as a big-endian unsigned integer. *)
  blake2b_8 : string -> Z;
  (** The state of a [random.Random] instance. *)
  mt_state : Type;
  (** [random.Random(seed)]. *)
  mt_seed : Z -> mt_state;
  (** [Random.random()]: the next float and the advanced generator. *)
  mt_random : mt_state -> Q * mt_state;
  (** [Random.shuffle(x)]: the list as shuffled in place, and the advanced
      generator. *)
  mt_shuffle : mt_state -> list string -> list string * mt_state;
  math_sqrt : Q -> Q;
  math_log : Q -> Q;
  math_cos : Q -> Q;
  (** [x ** y] on floats. *)
  float_pow : Q -> Q -> Q;
  (** The constant [math.pi]. *)
  math_pi : Q;
}.

(** What the library documents of its generator: [random()] lies in
    [[0, 1)] and [shuffle] permutes. *)
Definition random_in_unit (P : Platform) : Prop :=
  forall s : mt_state P, (0 <= (mt_random P s).1)%Q /\ ((mt_random P s).1 < 1)%Q.


(** A component handed to [hash64]; [str(p)] is what gets hashed. *)
Inductive part : Type :=
| PInt (z : Z)
| PStr (s : string).

Definition str_of_part (p : part) : string :=
  match p with
  | PInt z => pretty z
  | PStr s => s
  end.

(** The separator byte [0x1f] that follows every component. *)
Definition unit_sep : string := String (Ascii.ascii_of_nat 31) EmptyString.

Definition hash64_bytes (parts : list part) : string :=
  fold_right (fun p acc => str_of_part p +:+ unit_sep +:+ acc) EmptyString parts.

Section Rng.
Variable P : Platform.

Definition hash64 (parts : list part) : Z := blake2b_8 P (hash64_bytes parts).

(** [RNG(seed)] and its methods. *)
Definition RNG (seed : Z) : mt_state P := mt_seed P seed.

Definition rng_random (r : mt_state P) : Q * mt_state P := mt_random P r.

Definition rng_shuffle (r : mt_state P) (items : list string)
  : list string * mt_state P := mt_shuffle P r items.

Definition tri_centered (r : mt_state P) : Q * mt_state P :=
  let '(u1, r1) := rng_random r in
  let '(u2, r2) := rng_random r1 in
  let '(u3, r3) := rng_random r2 in
  ((u1 + u2 + u3 - 1.5)%Q, r3).

End Rng.

(** ** models.py and roster.py *)

Inductive Style : Type := FR | SD | LS | SR | AL.
Inductive Sex : Type := Male | Female.
Inductive Surface : Type := TURF | DIRT.
Inductive Condition : Type := GOOD | GOOD_TO_SOFT | SOFT | HEAVY.
Inductive Slot : Type := R1 | R2 | R3 | R4 | R5 | G1.

Global Instance Style_eq_dec : EqDecision Style.
Proof. solve_decision. Defined.
Global Instance Surface_eq_dec : EqDecision Surface.
Proof. solve_decision. Defined.
Global Instance Condition_eq_dec : EqDecision Condition.
Proof. solve_decision. Defined.
Global Instance Slot_eq_dec : EqDecision Slot.
Proof. solve_decision. Defined.

(** The string each literal is at run time (what [str(p)] hashes). *)
Definition surface_str (s : Surface) : string :=
  match s with TURF => "TURF" | DIRT => "DIRT" end.

Definition condition_str (c : Condition) : string :=
  match c with
  | GOOD => "GOOD" | GOOD_TO_SOFT => "GOOD_TO_SOFT" | SOFT => "SOFT" | HEAVY => "HEAVY"
  end.

Definition slot_str (s : Slot) : string :=
  match s with
  | R1 => "1R" | R2 => "2R" | R3 => "3R" | R4 => "4R" | R5 => "5R" | G1 => "G1"
  end.

Record Internals : Type := {
  stamina : Z;
  speed : Z;
  sharp : Z;
}.

Record Externals : Type := {
  start : Z;
  corner : Z;
  oob : Z;
  competing : Z;
  tenacious : Z;
  spurt : Z;
}.

Record Horse : Type := {
  id : string;
  name : string;
  sex : Sex;
  style : Style;
  ac : Z;
  internals : Internals;
  externals : Externals;
  rating_base : option Q;
}.

Record RaceRunnerResult : Type := {
  pos : Z;
  horse_id : string;
  horse_name : string;
  time_seconds : Q;
  lengths_behind : Q;
}.

(** [roster.ParentHorse]: a parent on the breeding scale. *)
Record ParentHorse : Type := {
  p_name : string;
  p_stamina : Z;
  p_speed : Z;
  p_sharp : Z;
  p_ac : Z;
  p_start : Z;
  p_corner : Z;
  p_oob : Z;
  p_competing : Z;
  p_tenacious : Z;
  p_spurt : Z;
}.

(** ** breeding.py *)

Inductive ExternalKey : Type :=
| k_start | k_corner | k_oob | k_competing | k_tenacious | k_spurt.

Global Instance ExternalKey_eq_dec : EqDecision ExternalKey.
Proof. solve_decision. Defined.

Definition MIN_V : Z := 8.
Definition MAX_V : Z := 48.

Definition clamp_int (x lo hi : Z) : Z :=
  if x <? lo then lo else if x >? hi then hi else x.

(** [safe_get(obj, key)] on a parent record. *)
Definition safe_get (p : ParentHorse) (k : ExternalKey) : Z :=
  match k with
  | k_start => p_start p
  | k_corner => p_corner p
  | k_oob => p_oob p
  | k_competing => p_competing p
  | k_tenacious => p_tenacious p
  | k_spurt => p_spurt p
  end.

Definition floor_avg (a b : Z) : Z := (a + b) / 2.

Definition breed_internals (sire dam : ParentHorse) : Internals :=
  {| stamina := floor_avg (p_stamina sire) (p_stamina dam);
     speed := floor_avg (p_speed sire) (p_speed dam);
     sharp := floor_avg (p_sharp sire) (p_sharp dam) |}.

(** The tuple [keys] of [compute_birth_ext_8_48_from_parents]. *)
Definition keys : list ExternalKey :=
  [k_start; k_corner; k_oob; k_competing; k_tenacious; k_spurt].

(** The dict [out], keyed by the six names: [out[k]] and [out[k] = v]. *)
Definition ext_get (d : Externals) (k : ExternalKey) : Z :=
  match k with
  | k_start => start d
  | k_corner => corner d
  | k_oob => oob d
  | k_competing => competing d
  | k_tenacious => tenacious d
  | k_spurt => spurt d
  end.

Definition ext_set (d : Externals) (k : ExternalKey) (v : Z) : Externals :=
  match k with
  | k_start =>
      {| start := v; corner := corner d; oob := oob d; competing := competing d;
         tenacious := tenacious d; spurt := spurt d |}
  | k_corner =>
      {| start := start d; corner := v; oob := oob d; competing := competing d;
         tenacious := tenacious d; spurt := spurt d |}
  | k_oob =>
      {| start := start d; corner := corner d; oob := v; competing := competing d;
         tenacious := tenacious d; spurt := spurt d |}
  | k_competing =>
      {| start := start d; corner := corner d; oob := oob d; competing := v;
         tenacious := tenacious d; spurt := spurt d |}
  | k_tenacious =>
      {| start := start d; corner := corner d; oob := oob d; competing := competing d;
         tenacious := v; spurt := spurt d |}
  | k_spurt =>
      {| start := start d; corner := corner d; oob := oob d; competing := competing d;
         tenacious := tenacious d; spurt := v |}
  end.

(** [sum_ext(d)]: the sum over [keys]. *)
Definition sum_ext (d : Externals) : Z := Zsum (map (ext_get d) keys).

(** [max(keys, key=lambda kk: out[kk])]: the first key of largest value. *)
Definition kmax_of (d : Externals) : ExternalKey :=
  fold_left (fun best k => if ext_get d best <? ext_get d k then k else best)
            [k_corner; k_oob; k_competing; k_tenacious; k_spurt] k_start.

Section Breeding.
Variable P : Platform.

Local Open Scope Q_scope.

Definition gamma : Q := 1.6.
Definition sd_base : Q := 2.2.
Definition anom_p : Q := 0.035.
Definition anom_mag : Q := 14.0.

(** [t_total], [n_shift] and the token-adjusted cap. *)
Definition t_total_of (genetic_tokens_sire genetic_tokens_dam : Z) : Z :=
  Z.max 0 (genetic_tokens_sire + genetic_tokens_dam).

Definition n_shift_of (t_total : Z) : Q :=
  0.03 * inject_Z (Z.max 0 (Z.min t_total 6)).

Definition adjusted_cap (cap_sum t_total : Z) : Z :=
  Z.min 180 (cap_sum + Z.min (4 * t_total) 20).

(** One turn of the first loop: the value stored in [out[k]] and the
    generator after its draws. *)
Definition birth_value (sire dam : ParentHorse) (t_total : Z) (k : ExternalKey)
    (rng : mt_state P) : Z * mt_state P :=
  let a0 := clamp_int (safe_get sire k) 0 16 in
  let b0 := clamp_int (safe_get dam k) 0 16 in
  let denom := if (a0 =? 16)%Z || (b0 =? 16)%Z then 16%Z else 15%Z in
  let n := (inject_Z (a0 + b0) / 2.0) / inject_Z denom in
  let n := fmax 0.0 (fmin 1.0 (n + n_shift_of t_total)) in
  let expected := inject_Z MIN_V + inject_Z (MAX_V - MIN_V) * float_pow P n gamma in
  let '(tri, rng) := tri_centered P rng in
  let noise := tri * sd_base * 2.0 in
  let '(u, rng) := rng_random P rng in
  let '(noise, rng) :=
    if Qltb u anom_p then
      let p_pos := fmin 0.70 (0.50 + 0.05 * inject_Z t_total) in
      let '(u_sign, rng) := rng_random P rng in
      let sign := if Qltb u_sign p_pos then 1.0 else -1.0 in
      let '(u_mag, rng) := rng_random P rng in
      (noise + sign * (u_mag * anom_mag), rng)
    else (noise, rng) in
  let v := py_int (expected + noise) in
  (clamp_int v MIN_V MAX_V, rng).

(** The first loop, over [keys] in order. *)
Definition birth_loop (sire dam : ParentHorse) (t_total : Z) (rng : mt_state P)
  : Externals * mt_state P :=
  let '(v1, rng) := birth_value sire dam t_total k_start rng in
  let '(v2, rng) := birth_value sire dam t_total k_corner rng in
  let '(v3, rng) := birth_value sire dam t_total k_oob rng in
  let '(v4, rng) := birth_value sire dam t_total k_competing rng in
  let '(v5, rng) := birth_value sire dam t_total k_tenacious rng in
  let '(v6, rng) := birth_value sire dam t_total k_spurt rng in
  ({| start := v1; corner := v2; oob := v3; competing := v4;
      tenacious := v5; spurt := v6 |}, rng).

(** [reducibles]: the keys above the floor with their room. *)
Definition reducibles (out : Externals) : list (ExternalKey * Z) :=
  omap (fun k => if (ext_get out k >? MIN_V)%Z
                 then Some (k, (ext_get out k - MIN_V)%Z) else None) keys.

(** The inner loop over [reducibles]. *)
Definition apply_cuts (excess total_room : Z) (reds : list (ExternalKey * Z))
    (out : Externals) : Externals :=
  fold_left
    (fun o kr =>
       let cut := py_round (inject_Z excess * (inject_Z kr.2 / inject_Z total_room)) in
       if (cut <=? 0)%Z then o
       else ext_set o kr.1 (Z.max MIN_V (ext_get o kr.1 - cut)))
    reds out.

(** The proportional phase: [for _ in range(n)] with its two [break]s. *)
Fixpoint proportional (n : nat) (cap_sum : Z) (out : Externals) : Externals :=
  match n with
  | O => out
  | S n' =>
      let s := sum_ext out in
      if (s <=? cap_sum)%Z then out
      else
        let excess := (s - cap_sum)%Z in
        let reds := reducibles out in
        let total_room := Zsum (map snd reds) in
        if (total_room <=? 0)%Z then out
        else proportional n' cap_sum (apply_cuts excess total_room reds out)
  end.

(** The greedy phase: the [while] loop, unrolled at most [fuel] times. *)
Fixpoint greedy_loop (fuel : nat) (cap_sum : Z) (out : Externals) : Externals :=
  match fuel with
  | O => out
  | S fuel' =>
      if (sum_ext out >? cap_sum)%Z then
        let kmax := kmax_of out in
        if (ext_get out kmax <=? MIN_V)%Z then out
        else greedy_loop fuel' cap_sum (ext_set out kmax (ext_get out kmax - 1)%Z)
      else out
  end.

(** Every turn lowers the sum by one, so [sum - cap] turns always suffice
    (lemma [greedy_exit] below). *)
Definition greedy (cap_sum : Z) (out : Externals) : Externals :=
  greedy_loop (Z.to_nat (sum_ext out - cap_sum)) cap_sum out.

Definition compute_birth_ext_8_48_from_parents (sire dam : ParentHorse)
    (rng : mt_state P) (cap_sum genetic_tokens_sire genetic_tokens_dam : Z)
  : Externals * mt_state P :=
  let t_total := t_total_of genetic_tokens_sire genetic_tokens_dam in
  let cap_sum := adjusted_cap cap_sum t_total in
  let '(out, rng) := birth_loop sire dam t_total rng in
  let out := proportional 20 cap_sum out in
  (greedy cap_sum out, rng).

End Breeding.

(** [derive_leg_type]: the running style read off five of the externals. *)
Definition derive_leg_type (racing_ext : Externals) : Style :=
  let compare := [k_start; k_oob; k_competing; k_tenacious; k_spurt] in
  let vals := map (ext_get racing_ext) compare in
  let mx := fold_left Z.max vals (start racing_ext) in
  let mn := fold_left Z.min vals (start racing_ext) in
  if mx - mn <=? 3 then AL
  else
    let st := start racing_ext in
    let greater :=
      Z.of_nat (length (filter (fun k => st < ext_get racing_ext k) compare)) in
    if greater =? 0 then FR
    else if greater =? 1 then SD
    else if greater =? 2 then LS
    else SR.

Definition derive_style_fr_sr (racing_ext : Externals) : Style :=
  derive_leg_type racing_ext.

(** ** rating.py *)

Definition ext_sum (h : Horse) : Z :=
  let e := externals h in
  start e + corner e + oob e + competing e + tenacious e + spurt e.

Definition int_sum (h : Horse) : Z :=
  let i := internals h in
  stamina i + speed i + sharp i.

(** Float division: a zero divisor raises. *)
Definition fdiv (x y : Q) : outcome Q :=
  if Qeq_bool y 0 then Raised ZeroDivisionError else Returned (x / y)%Q.

Section Rating.
Variable P : Platform.

Local Open Scope Q_scope.

(** Mean and variance as [compute_pool_int_stats] and [timed_results]
    compute them: both divide by [max(1, len(vals))]. *)
Definition mean_of (vals : list Q) : Q :=
  Qsum vals / inject_Z (Z.max 1 (Z.of_nat (length vals))).

Definition variance_of (vals : list Q) (mu : Q) : Q :=
  Qsum (map (fun v => (v - mu) * (v - mu)) vals)
  / inject_Z (Z.max 1 (Z.of_nat (length vals))).

(** [math.sqrt(var) if var > 1e-9 else 1.0]. *)
Definition sd_of (var : Q) : Q :=
  if Qltb 1e-9 var then math_sqrt P var else 1.0.

Definition compute_pool_int_stats (horses : list Horse) : Q * Q :=
  let vals := map (fun h => inject_Z (int_sum h)) horses in
  let mu := mean_of vals in
  let var := variance_of vals mu in
  (mu, sd_of var).

Definition compute_rating (h : Horse) (pool_int_mean pool_int_sd : Q) : outcome Q :=
  let en := inject_Z (ext_sum h - 48) / inject_Z (288 - 48) * 100.0 in
  z ← fdiv (inject_Z (int_sum h) - pool_int_mean) pool_int_sd;
  let inn := z * 15.0 + 50.0 in
  mret (0.55 * en + 0.45 * inn).

End Rating.

(** [math.sqrt] of a positive float is positive. *)
Definition sqrt_positive (P : Platform) : Prop :=
  forall x : Q, (0 < x)%Q -> (0 < math_sqrt P x)%Q.

(** ** cpu_pool.py *)

Local Open Scope Q_scope.

Definition BANDS (slot : Slot) : Q * Q :=
  match slot with
  | R1 => (0.20, 0.80)
  | R2 => (0.25, 0.85)
  | R3 => (0.50, 0.95)
  | R4 => (0.30, 0.85)
  | R5 => (0.40, 0.90)
  | G1 => (0.65, 1.00)
  end.

Local Close Scope Q_scope.


(** The address of a Python [set] object and the store of all of them. *)
Definition loc : Type := nat.
Abbreviation set_store := (gmap nat (gset string)).

Definition slot_index (s : Slot) : nat :=
  match s with R1 => 0 | R2 => 1 | R3 => 2 | R4 => 3 | R5 => 4 | G1 => 5 end.

Definition slot_of_index (n : nat) : Slot :=
  match n with
  | 0 => R1 | 1 => R2 | 2 => R3 | 3 => R4 | 4 => R5 | _ => G1
  end%nat.

Global Instance Slot_countable : Countable Slot.
Proof. apply (inj_countable' slot_index slot_of_index). by intros []. Defined.

(** [RoundPool]: the dict [used_by_slot] maps a slot to a set object,
    which it may share with another slot. *)
Record RoundPool : Type := {
  pool_round_num : Z;
  pool_seed : Z;
  pool_horses : list Horse;
  pool_sorted_ids : list string;
  pool_used_by_slot : gmap Slot loc;
}.

(** The set stored at an address. *)
Definition set_at (st : set_store) (l : loc) : gset string :=
  default ∅ (st !! l).



(** Python slicing [l[lo:hi]] with step 1. *)
Definition norm_index (len i : Z) : Z :=
  if i <? 0 then Z.max 0 (i + len) else Z.min i len.

Definition py_slice {A : Type} (l : list A) (lo hi : Z) : list A :=
  let len := Z.of_nat (length l) in
  let a := norm_index len lo in
  let b := norm_index len hi in
  take (Z.to_nat (b - a)) (drop (Z.to_nat a) l).

(** The first loop of [select_cpu_field]: ids not yet used for the slot. *)
Fixpoint pick_unused (used : gset string) (field_size : Z)
    (candidates chosen : list string) : list string :=
  match candidates with
  | [] => chosen
  | hid :: rest =>
      let chosen := if decide (hid ∈ used) then chosen else chosen ++ [hid] in
      if Z.of_nat (length chosen) =? field_size then chosen
      else pick_unused used field_size rest chosen
  end.

(** The second loop: any candidate not chosen already. *)
Fixpoint pick_any (field_size : Z) (candidates chosen : list string) : list string :=
  match candidates with
  | [] => chosen
  | hid :: rest =>
      let chosen := if decide (hid ∈ chosen) then chosen else chosen ++ [hid] in
      if Z.of_nat (length chosen) =? field_size then chosen
      else pick_any field_size rest chosen
  end.

(** [m = {h.id: h for h in pool.horses}] and [m.get(i)]: the last horse
    of that id wins. *)
Definition horse_by_id (horses : list Horse) (i : string) : option Horse :=
  snd <$> list_find (fun h => id h = i) (reverse horses).

Section CpuPool.
Variable P : Platform.

(** The percentile window of a slot, shifted and clamped. *)
Definition window (slot : Slot) (band_shift : Q) : Q * Q :=
  let '(lo_p, hi_p) := BANDS slot in
  let lo_p := fmax 0.0 (fmin 1.0 (lo_p + band_shift)) in
  let hi_p := fmax 0.0 (fmin 1.0 (hi_p + band_shift)) in
  let hi_p := if Qltb hi_p lo_p then lo_p else hi_p in
  (lo_p, hi_p).

(** [candidates = ids[lo:hi+1]]. *)
Definition candidates_of (ids : list string) (slot : Slot) (band_shift : Q)
  : list string :=
  let '(lo_p, hi_p) := window slot band_shift in
  let n := Z.of_nat (length ids) in
  let lo := py_int (inject_Z n * lo_p) in
  let hi := Z.max lo (py_int (inject_Z n * hi_p) - 1) in
  py_slice ids lo (hi + 1).

(** [select_cpu_field]: the field returned (or the exception raised) and
    the store of set objects after the call. *)
Definition select_cpu_field (global_seed : Z) (pool : RoundPool) (slot : Slot)
    (meet_iteration field_size : Z) (band_shift : Q) (st : set_store)
  : outcome (list Horse) * set_store :=
  let candidates := candidates_of (pool_sorted_ids pool) slot band_shift in
  let rng := RNG P (hash64 P [PInt global_seed; PStr "FIELD"; PInt (pool_round_num pool);
                              PStr (slot_str slot); PInt meet_iteration]) in
  let candidates := (rng_shuffle P rng candidates).1 in
  match pool_used_by_slot pool !! slot with
  | None => (Raised KeyError, st)
  | Some l =>
      let used := set_at st l in
      let chosen := pick_unused used field_size candidates [] in
      let chosen :=
        if Z.of_nat (length chosen) <? field_size
        then pick_any field_size candidates chosen else chosen in
      let st := <[l := used ∪ list_to_set chosen]> st in
      (Returned (omap (horse_by_id (pool_horses pool)) chosen), st)
  end.

End CpuPool.

(** ** schedule.py *)

Record RaceMeta : Type := {
  race_round_num : Z;
  race_slot : Slot;
  race_track : string;
  race_distance : Z;
  race_winner_purse : Z;
  race_name : option string;
  race_course_code : string;
  race_surface : Surface;
}.

(** ** surfaces.py *)

Inductive AcCategory : Type := CAT_TURF | CAT_MIXED | CAT_DIRT_LEAN | CAT_DIRT_MAX.

Definition ac_category (ac : Z) : AcCategory :=
  if ac <=? 63 then CAT_TURF
  else if ac <=? 212 then CAT_MIXED
  else if ac <=? 254 then CAT_DIRT_LEAN
  else CAT_DIRT_MAX.

Local Open Scope Q_scope.

Definition surface_fit (ac : Z) (race_surface : Surface) : Q :=
  match ac_category ac with
  | CAT_TURF => if decide (race_surface = TURF) then 0.9 else -0.6
  | CAT_MIXED => 0.2
  | CAT_DIRT_LEAN => if decide (race_surface = DIRT) then 0.6 else -0.2
  | CAT_DIRT_MAX => if decide (race_surface = DIRT) then 1.0 else -0.5
  end.

Definition _default_condition_probs (surface : Surface) : list (Condition * Q) :=
  match surface with
  | TURF => [(GOOD, 0.35); (GOOD_TO_SOFT, 0.30); (SOFT, 0.20); (HEAVY, 0.15)]
  | DIRT => [(SOFT, 0.35); (HEAVY, 0.30); (GOOD_TO_SOFT, 0.20); (GOOD, 0.15)]
  end.

Definition condition_speed_scalar (surface : Surface) (cond : Condition) : Q :=
  match surface, cond with
  | TURF, GOOD => 0.02
  | TURF, GOOD_TO_SOFT => 0.00
  | TURF, SOFT => -0.01
  | TURF, HEAVY => -0.03
  | DIRT, SOFT => 0.02
  | DIRT, HEAVY => 0.01
  | DIRT, GOOD_TO_SOFT => 0.00
  | DIRT, GOOD => -0.02
  end.

(** The loop of [roll_condition]: the first condition whose running total
    reaches [r]. *)
Fixpoint roll_loop (r acc : Q) (probs : list (Condition * Q)) : option Condition :=
  match probs with
  | [] => None
  | (c, p) :: rest =>
      let acc := acc + p in
      if Qleb r acc then Some c else roll_loop r acc rest
  end.

(** ** race_engine.py *)

Definition distance_profile (distance_m : Z) : Q * Q * Q :=
  if (distance_m <=? 1400)%Z then (0.75, 0.25, 0.0)
  else if (distance_m <=? 2000)%Z then (0.30, 0.55, 0.15)
  else if (distance_m <=? 2600)%Z then (0.15, 0.35, 0.50)
  else (0.05, 0.25, 0.70).

Definition _clamp (x lo hi : Q) : Q :=
  if Qltb x lo then lo else if Qltb hi x then hi else x.

Definition _ext_norm (v : Z) : Q :=
  let vv := _clamp (inject_Z v) 8.0 48.0 in
  (vv - 8.0) * 1.5.

Definition _condition_heaviness (cond : Condition) : Q :=
  match cond with
  | GOOD => 0.0
  | GOOD_TO_SOFT => 0.35
  | SOFT => 0.70
  | HEAVY => 1.0
  end.

Definition _STYLE_EARLY_BONUS (s : Style) : Q :=
  match s with FR => 3.0 | SD => 2.0 | AL => 0.5 | LS => -0.5 | SR => -1.0 end.

Definition _STYLE_MID_BONUS (s : Style) : Q :=
  match s with FR => 0.2 | SD => 0.4 | AL => 0.6 | LS => 0.2 | SR => 0.0 end.

Definition _STYLE_LATE_BONUS (s : Style) : Q :=
  match s with FR => -1.0 | SD => -0.5 | AL => 0.5 | LS => 3.0 | SR => 2.0 end.

Definition _STYLE_ENDURANCE (s : Style) : Q :=
  match s with FR => 1.00 | SD => 0.90 | AL => 0.75 | LS => 0.55 | SR => 0.45 end.

Definition _gate_ideal_pos (s : Style) : Q :=
  match s with
  | FR | SD => 0.22
  | AL => 0.50
  | LS => 0.65
  | SR => 0.75
  end.

Definition _gate_penalty (gate n_runners : Z) (style : Style) (surface : Surface)
    (sprint mile stayer break_skill : Q) : Q :=
  if (n_runners <=? 1)%Z then 0.0
  else
    let gate_pos := inject_Z (gate - 1) / inject_Z (n_runners - 1) in
    let gate_pos := _clamp gate_pos 0.0 1.0 in
    let severity := (1.9 * sprint + 1.2 * mile + 0.7 * stayer)
                    * (if decide (surface = TURF) then 1.15 else 1.0) in
    let ideal := _gate_ideal_pos style in
    let style_pen := Qabs (gate_pos - ideal) * severity * 2.3 in
    let outside_sev := (1.4 * sprint + 0.9 * mile + 0.5 * stayer)
                       * (if decide (surface = TURF) then 1.05 else 1.0) in
    let outside_pen := gate_pos * outside_sev * 1.3 in
    let raw := style_pen + outside_pen in
    let mitig := 1.0 - 0.50 * _clamp break_skill 0.0 1.0 in
    raw * mitig.

Definition _turn_penalty (gate n_runners : Z) (surface : Surface)
    (sprint mile stayer corner_skill : Q) : Q :=
  if (n_runners <=? 1)%Z then 0.0
  else
    let gate_pos := inject_Z (gate - 1) / inject_Z (n_runners - 1) in
    let gate_pos := _clamp gate_pos 0.0 1.0 in
    let sev := (1.6 * sprint + 1.2 * mile + 0.9 * stayer)
               * (if decide (surface = TURF) then 1.15 else 1.0) in
    let lack := 1.0 - _clamp corner_skill 0.0 1.0 in
    gate_pos * sev * lack * 1.8.

Definition _surface_scalar (ac : Z) (surface : Surface) (cond : Condition) : Q :=
  let fit := surface_fit ac surface in
  let heavy := _condition_heaviness cond in
  if Qleb 0 fit then 1.0 + 0.10 * fit
  else 1.0 + 0.24 * fit * (1.0 + 0.90 * heavy).

Local Close Scope Q_scope.

(** [sorted(l, key=key)] and [sorted(l, key=key, reverse=True)]: stable
    insertion, an element goes before the later ones of equal key. *)
Fixpoint insert_by {A : Type} (before : A -> A -> bool) (x : A) (l : list A) : list A :=
  match l with
  | [] => [x]
  | y :: l' => if before x y then x :: y :: l' else y :: insert_by before x l'
  end.

Definition sort_by {A : Type} (before : A -> A -> bool) (l : list A) : list A :=
  foldr (insert_by before) [] l.

Definition sorted_asc {A : Type} (key : A -> Q) (l : list A) : list A :=
  sort_by (fun x y => Qleb (key x) (key y)) l.

Definition sorted_desc {A : Type} (key : A -> Q) (l : list A) : list A :=
  sort_by (fun x y => Qleb (key y) (key x)) l.

(** List indexing [l[k]] and [l[k] = v] with Python's negative indices. *)
Definition py_index (len : nat) (k : Z) : outcome nat :=
  if (0 <=? k) && (k <? Z.of_nat len) then Returned (Z.to_nat k)
  else if (- Z.of_nat len <=? k) && (k <? 0) then Returned (Z.to_nat (k + Z.of_nat len))
  else Raised IndexError.

Definition py_getitem {A : Type} (l : list A) (k : Z) : outcome A :=
  i ← py_index (length l) k;
  match l !! i with
  | Some x => Returned x
  | None => Raised IndexError
  end.

Definition py_setitem {A : Type} (l : list A) (k : Z) (v : A) : outcome (list A) :=
  i ← py_index (length l) k;
  Returned (<[i := v]> l).

(** A dict built by assignments in order: the last value of a key stays. *)
Definition dict_of_pairs {V : Type} (kvs : list (string * V)) : gmap string V :=
  fold_left (fun m kv => <[kv.1 := kv.2]> m) kvs ∅.

(** [list(range(1, n + 1))]. *)
Definition range1 (n : nat) : list Z := map (fun k => Z.of_nat k + 1) (seq 0 n).

Record RaceSimResult : Type := {
  sim_scores : gmap string Q;
  sim_finish_order : list Horse;
  sim_payouts : gmap string Z;
  sim_gates : gmap string Z;
  sim_payouts_by_pos : gmap Z Z;
}.

Section RaceEngine.
Variable P : Platform.

Local Open Scope Q_scope.

Definition roll_condition (global_seed round_num : Z) (slot : string) (meet_iter : Z)
    (surface : Surface) : Condition :=
  let rng := RNG P (hash64 P [PInt global_seed; PStr "COND"; PInt round_num;
                              PStr slot; PInt meet_iter]) in
  let r := (rng_random P rng).1 in
  let probs := _default_condition_probs surface in
  match roll_loop r 0.0 probs with
  | Some c => c
  | None => from_option fst GOOD (last probs)
  end.

Definition _tri_noise (rng : mt_state P) : Q * mt_state P :=
  let '(u1, rng) := rng_random P rng in
  let '(u2, rng) := rng_random P rng in
  (u1 + u2 - 1.0, rng).

Definition _gauss (rng : mt_state P) (mu sigma : Q) : Q * mt_state P :=
  let '(u, rng) := rng_random P rng in
  let u1 := fmax 1e-12 u in
  let '(u2, rng) := rng_random P rng in
  let z0 := math_sqrt P (-2.0 * math_log P u1) * math_cos P (2.0 * math_pi P * u2) in
  (mu + sigma * z0, rng).

Definition _pace_hotness (early_potentials : list Q) : Q :=
  let n := Z.of_nat (length early_potentials) in
  if (n <? 3)%Z then 0.0
  else
    let mean := Qsum early_potentials / inject_Z n in
    let var := Qsum (map (fun v => (v - mean) * (v - mean)) early_potentials)
               / inject_Z n in
    let sd := if Qltb 1e-9 var then math_sqrt P var else 0.0 in
    if Qleb sd 1e-9 then 0.0
    else
      let top3 := take 3 (sorted_desc (fun v => v) early_potentials) in
      let top_mean := Qsum top3 / 3.0 in
      let z := (top_mean - mean) / sd in
      _clamp (z - 0.25) 0.0 2.0.

(** The base seed of a race, shared by the gate draw and the simulator. *)
Definition race_base_seed (seed meet_iter : Z) (race_meta : RaceMeta)
    (condition : Condition) : Z :=
  hash64 P [PInt seed; PInt meet_iter; PStr (race_course_code race_meta);
            PInt (race_distance race_meta); PStr (surface_str (race_surface race_meta));
            PStr (condition_str condition)].

(** The Fisher-Yates loop of [draw_gates], [i] running down to 1. *)
Fixpoint gate_shuffle (i : nat) (gates : list Z) (rng : mt_state P)
  : outcome (list Z) :=
  match i with
  | O => Returned gates
  | S i' =>
      let '(u, rng) := rng_random P rng in
      let j := py_int (u * inject_Z (Z.of_nat i + 1)) in
      gj ← py_getitem gates j;
      gi ← py_getitem gates (Z.of_nat i);
      gates ← py_setitem gates (Z.of_nat i) gj;
      gates ← py_setitem gates j gi;
      gate_shuffle i' gates rng
  end.

Definition draw_gates (seed meet_iter : Z) (race_meta : RaceMeta)
    (condition : Condition) (runners : list Horse) : outcome (gmap string Z) :=
  let base := race_base_seed seed meet_iter race_meta condition in
  let gate_rng := RNG P (hash64 P [PInt base; PStr "GATE"]) in
  let gates := range1 (length runners) in
  gates ← gate_shuffle (length gates - 1) gates gate_rng;
  mret (dict_of_pairs (zip (map id runners) gates)).

Definition _early_mid_late_base (h : Horse) (sprint mile stayer : Q) (gate n_runners : Z)
    (surface : Surface) (hrng : mt_state P) : Q * Q * Q :=
  let st := inject_Z (stamina (internals h)) in
  let sp := inject_Z (speed (internals h)) in
  let sh := inject_Z (sharp (internals h)) in
  let start := _ext_norm (start (externals h)) in
  let corner := _ext_norm (corner (externals h)) in
  let oob := _ext_norm (oob (externals h)) in
  let comp := _ext_norm (competing (externals h)) in
  let ten := _ext_norm (tenacious (externals h)) in
  let spur := _ext_norm (spurt (externals h)) in
  let style := style h in
  let early_i := 0.60 * sp + 0.40 * sh in
  let early_e := 0.65 * start + 0.35 * oob in
  let early := 0.45 * early_i + 0.55 * early_e in
  let mid_i := 0.45 * sp + 0.25 * sh + 0.30 * st in
  let mid_e := 0.55 * comp + 0.45 * corner in
  let mid := 0.55 * mid_e + 0.45 * mid_i in
  let late_i := 0.55 * st + 0.30 * sp + 0.15 * sh in
  let late_e := 0.55 * spur + 0.45 * ten in
  let late := 0.55 * late_e + 0.45 * late_i in
  let early := early + _STYLE_EARLY_BONUS style in
  let mid := mid + _STYLE_MID_BONUS style in
  let late := late + _STYLE_LATE_BONUS style in
  let break_skill := (0.60 * start + 0.40 * oob) / 60.0 in
  let gp := _gate_penalty gate n_runners style surface sprint mile stayer break_skill in
  let early := early - gp * (0.75 * sprint + 0.40 * mile + 0.20 * stayer) in
  let mid := mid - gp * (0.25 * sprint + 0.40 * mile + 0.35 * stayer) in
  let cp := _turn_penalty gate n_runners surface sprint mile stayer (corner / 60.0) in
  let mid := mid - cp in
  let early := early + (_tri_noise hrng).1 * (1.20 * sprint + 0.85 * mile + 0.60 * stayer) in
  (early, mid, late).

End RaceEngine.

Section RaceSim.
Variable P : Platform.

Local Open Scope Q_scope.

(** [int(gate_by_id.get(h.id, 1))]. *)
Definition gate_of (gate_by_id : gmap string Z) (h : Horse) : Z :=
  default 1%Z (gate_by_id !! id h).

(** [RNG(hash64(base, h.id, "HORSE"))]: made anew in each of the two loops. *)
Definition horse_rng (base : Z) (h : Horse) : mt_state P :=
  RNG P (hash64 P [PInt base; PStr (id h); PStr "HORSE"]).

(** [phase_by_id[h.id]]; every runner's id was stored by the first loop. *)
Definition phase_at (phase_by_id : gmap string (Q * Q * Q)) (h : Horse) : Q * Q * Q :=
  default (0, 0, 0) (phase_by_id !! id h).

(** [scores[h.id]]; every runner's id was stored by the second loop. *)
Definition score_at (scores : gmap string Q) (h : Horse) : Q :=
  default 0 (scores !! id h).

(** The fade factor read off the early rank. *)
Definition pos_fac_of (rank : Z) : Q :=
  if (rank <=? 2)%Z then 1.00
  else if (rank <=? 4)%Z then 0.85
  else if (rank <=? 6)%Z then 0.65
  else if (rank <=? 9)%Z then 0.40
  else 0.25.

(** One turn of the scoring loop of [run_race_sim]. *)
Definition runner_score (base : Z) (sprint mile stayer heavy pace_hot : Q)
    (surface : Surface) (condition : Condition) (gate rank : Z)
    (phases : Q * Q * Q) (h : Horse) : Q :=
  let hrng := horse_rng base h in
  let style := style h in
  let st := inject_Z (stamina (internals h)) in
  let sp := inject_Z (speed (internals h)) in
  let sh := inject_Z (sharp (internals h)) in
  let oob := _ext_norm (oob (externals h)) in
  let comp := _ext_norm (competing (externals h)) in
  let ten := _ext_norm (tenacious (externals h)) in
  let '(early, mid, late) := phases in
  let is_closer :=
    bool_decide (style = LS \/ style = SR) || (8 <=? rank)%Z in
  let traffic_prob := 0.12 + 0.06 * sprint + 0.08 * mile + 0.10 * stayer in
  let traffic_prob := if is_closer then traffic_prob + 0.10 else traffic_prob in
  let traffic_prob :=
    if bool_decide (surface = DIRT) && Qleb 0.70 heavy
    then traffic_prob + 0.05 else traffic_prob in
  let traffic_prob :=
    if (gate <=? 4)%Z then traffic_prob + 0.07
    else if (gate <=? 8)%Z then traffic_prob + 0.03
    else traffic_prob in
  let traffic_prob := traffic_prob - (oob / 60.0) * 0.18 in
  let traffic_prob := traffic_prob - (comp / 60.0) * 0.08 in
  let traffic_prob := _clamp traffic_prob 0.0 0.55 in
  let '(u, hrng) := rng_random P hrng in
  let '(mid, late, hrng) :=
    if Qltb u traffic_prob then
      let '(u_pen, hrng) := rng_random P hrng in
      let penalty := (1.5 + u_pen * 2.5) * (1.0 - (oob / 60.0) * 0.55) in
      let late := late - penalty * (0.65 * sprint + 0.55 * mile + 0.45 * stayer) in
      let mid := mid - penalty * 0.25 in
      (mid, late, hrng)
    else if is_closer && Qleb 45.0 oob then
      let cut_chance := 0.12 + 0.08 * mile + 0.06 * stayer in
      let '(u_cut, hrng) := rng_random P hrng in
      if Qltb u_cut cut_chance then
        let '(u_gain, hrng) := rng_random P hrng in
        (mid, late + (1.0 + u_gain * 1.5), hrng)
      else (mid, late, hrng)
    else (mid, late, hrng) in
  let pos_fac := pos_fac_of rank in
  let endurance := _STYLE_ENDURANCE style in
  let dist_fac := 0.30 * sprint + 0.70 * mile + 1.00 * stayer in
  let energy := 0.55 * st + 0.45 * ten in
  let energy_def := fmax 0.0 (32.0 - energy) / 32.0 in
  let pace_fade := pace_hot * pos_fac * endurance * dist_fac * (1.5 + 2.5 * energy_def) in
  let sprinter_apt := 0.55 * sp + 0.45 * sh in
  let mismatch := fmax 0.0 (sprinter_apt - st) in
  let dist_fade :=
    (mismatch / 40.0) * endurance * (0.20 * sprint + 0.80 * mile + 1.20 * stayer) * 2.8 in
  let handling := 0.45 * st + 0.55 * ten in
  let going_adj := heavy * ((handling - 30.0) / 30.0) * 2.0 in
  let w_early := 0.45 * sprint + 0.30 * mile + 0.20 * stayer in
  let w_mid := 0.30 * sprint + 0.35 * mile + 0.35 * stayer in
  let w_late := 0.25 * sprint + 0.35 * mile + 0.45 * stayer in
  let score := w_early * early + w_mid * mid + w_late * late in
  let score := score + going_adj in
  let score := score - (pace_fade + dist_fade) in
  let score := score * _surface_scalar (ac h) surface condition in
  let sigma := 0.95 * sprint + 0.75 * mile + 0.60 * stayer in
  let '(g, hrng) := _gauss P hrng 0.0 sigma in
  let score := score + g in
  let score := score + (_tri_noise P hrng).1 * 0.25 in
  score.

(** The body of [run_race_sim] once the gate map is known. *)
Definition race_with_gates (seed meet_iter : Z) (race_meta : RaceMeta)
    (condition : Condition) (runners : list Horse) (gate_by_id : gmap string Z)
  : RaceSimResult :=
  let base := race_base_seed P seed meet_iter race_meta condition in
  let '(sprint, mile, stayer) := distance_profile (race_distance race_meta) in
  let surface := race_surface race_meta in
  let heavy := _condition_heaviness condition in
  let n_runners := Z.of_nat (length runners) in
  let phases_of h :=
    _early_mid_late_base P h sprint mile stayer (gate_of gate_by_id h) n_runners
                         surface (horse_rng base h) in
  let phase_by_id := dict_of_pairs (map (fun h => (id h, phases_of h)) runners) in
  let early_pots := map (fun h => (phases_of h).1.1) runners in
  let pace_hot := _pace_hotness P early_pots in
  let early_order := sorted_desc (fun hh => (phase_at phase_by_id hh).1.1) runners in
  let early_rank :=
    dict_of_pairs (imap (fun i h => (id h, (Z.of_nat i + 1)%Z)) early_order) in
  let score_of h :=
    runner_score base sprint mile stayer heavy pace_hot surface condition
                 (gate_of gate_by_id h) (default 6%Z (early_rank !! id h))
                 (phase_at phase_by_id h) h in
  let scores := dict_of_pairs (map (fun h => (id h, score_of h)) runners) in
  let finish_order := sorted_desc (score_at scores) runners in
  let finish_ids := map id finish_order in
  let purse := race_winner_purse race_meta in
  let payout_list :=
    [purse; py_int (inject_Z purse * 0.3); py_int (inject_Z purse * 0.2)] in
  let payouts_by_pos :=
    fold_left (fun m kv => <[kv.1 := kv.2]> m)
              (imap (fun i v => ((Z.of_nat i + 1)%Z, v)) payout_list) ∅ in
  let payouts := dict_of_pairs (zip (take 3 finish_ids) payout_list) in
  {| sim_scores := scores;
     sim_finish_order := finish_order;
     sim_payouts := payouts;
     sim_gates := gate_by_id;
     sim_payouts_by_pos := payouts_by_pos |}.

(** [run_race_sim]: [gate_by_id = None] draws the gates first. *)
Definition run_race_sim (seed meet_iter : Z) (race_meta : RaceMeta)
    (condition : Condition) (player : Horse) (cpu11 : list Horse)
    (gate_by_id : option (gmap string Z)) : outcome RaceSimResult :=
  let runners := player :: cpu11 in
  gates ← match gate_by_id with
          | None => draw_gates P seed meet_iter race_meta condition runners
          | Some g => Returned g
          end;
  mret (race_with_gates seed meet_iter race_meta condition runners gates).

End RaceSim.

(** ** records.py *)

Record RecordEntry : Type := {
  rec_time_seconds : Q;
  rec_holder : string;
}.

Definition EPS_BREAK : Q := 0.10.

(** The key [f"{course_code}|{distance}|{surface}"]. *)
Definition _key (course_code : string) (distance : Z) (surface : Surface) : string :=
  course_code +:+ "|" +:+ pretty distance +:+ "|" +:+ surface_str surface.

Definition get_record (records : gmap string RecordEntry) (course_code : string)
    (distance : Z) (surface : Surface) : option RecordEntry :=
  records !! _key course_code distance surface.

(** [ensure_record]: the entry returned and the table after the call. *)
Definition ensure_record (records : gmap string RecordEntry) (course_code : string)
    (distance : Z) (surface : Surface) (time_seconds : Q) (holder : string)
  : RecordEntry * gmap string RecordEntry :=
  let k := _key course_code distance surface in
  match records !! k with
  | None =>
      let e := {| rec_time_seconds := time_seconds; rec_holder := holder |} in
      (e, <[k := e]> records)
  | Some e => (e, records)
  end.

(** [update_if_broken]: the pair returned and the table after the call. *)
Definition update_if_broken (records : gmap string RecordEntry) (course_code : string)
    (distance : Z) (surface : Surface) (time_seconds : Q) (holder : string)
  : (bool * RecordEntry) * gmap string RecordEntry :=
  let k := _key course_code distance surface in
  let e := {| rec_time_seconds := time_seconds; rec_holder := holder |} in
  match records !! k with
  | None => ((true, e), <[k := e]> records)
  | Some old =>
      if Qltb time_seconds (rec_time_seconds old - EPS_BREAK)%Q
      then ((true, e), <[k := e]> records)
      else ((false, old), records)
  end.

(** ** race_reporting.py *)

Record TimedRace : Type := {
  tr_runners : list RaceRunnerResult;
  tr_winner_time : Q;
  tr_record_broken : bool;
  tr_record_entry : RecordEntry;
}.

Local Open Scope Q_scope.

(** [order.index(condition) if condition in order else 0]. *)
Definition condition_step (surface : Surface) (condition : Condition) : Z :=
  let order :=
    match surface with
    | TURF => [GOOD; GOOD_TO_SOFT; SOFT; HEAVY]
    | DIRT => [SOFT; HEAVY; GOOD_TO_SOFT; GOOD]
    end in
  from_option (fun r => Z.of_nat r.1) 0%Z (list_find (fun c => c = condition) order).

Definition condition_time_penalty (surface : Surface) (condition : Condition)
    (distance : Z) : Q :=
  let step := condition_step surface condition in
  let per_step_1600 := 0.55 in
  inject_Z step * per_step_1600 * (inject_Z distance / 1600.0).

Definition par_time_seconds (distance : Z) (surface : Surface) : Q :=
  let v := if decide (surface = TURF) then 17.0 else 16.6 in
  inject_Z distance / v.

(** [min(...)] over a sequence of floats: empty raises, the first least
    element is returned. *)
Definition py_min (l : list Q) : outcome Q :=
  match l with
  | [] => Raised ValueError
  | x :: l' => Returned (fold_left fmin l' x)
  end.

(** The condition under which a record may fall. *)
Definition fastest_condition (surface : Surface) : Condition :=
  if decide (surface = TURF) then GOOD else SOFT.

Local Close Scope Q_scope.

Section Reporting.
Variable P : Platform.

Local Open Scope Q_scope.

(** [timed_results]: the result (or the exception raised) and the record
    table after the call. *)
Definition timed_results (race : RaceMeta) (condition : Condition)
    (finish_order : list Horse) (scores : gmap string Q)
    (records_state : gmap string RecordEntry)
  : outcome TimedRace * gmap string RecordEntry :=
  let '(rec, records_state) :=
    ensure_record records_state (race_course_code race) (race_distance race)
                  (race_surface race)
                  (par_time_seconds (race_distance race) (race_surface race)) "N/A" in
  let cond_fastness := condition_speed_scalar (race_surface race) condition in
  let base := rec_time_seconds rec + 2.00 in
  let base := base + condition_time_penalty (race_surface race) condition
                                            (race_distance race) in
  let base := base * (1.0 - 0.25 * cond_fastness) in
  let sc := map (fun h => default 0.0 (scores !! id h)) finish_order in
  let mu := mean_of sc in
  let var := variance_of sc mu in
  let sd := sd_of P var in
  let k := 0.55 in
  let timed :=
    runners_raw ← mapM (fun h =>
                    z ← fdiv (default mu (scores !! id h) - mu) sd;
                    mret (h, base - k * z)) finish_order;
    winner_time ← py_min (map snd runners_raw);
    let winner_time :=
      fmax (rec_time_seconds rec - 0.25)
           (fmin winner_time (rec_time_seconds rec + 8.00)) in
    min_t ← py_min (map snd runners_raw);
    let updated :=
      map (fun ht : Horse * Q =>
             let gap := ht.2 - min_t in
             let gap := fmax 0.0 (fmin gap 10.0) in
             (ht.1, winner_time + gap)) runners_raw in
    let updated := sorted_asc snd updated in
    let LEN_SEC := 0.20 in
    let out :=
      imap (fun i (ht : Horse * Q) =>
              {| pos := Z.of_nat i + 1;
                 horse_id := id ht.1;
                 horse_name := name ht.1;
                 time_seconds := ht.2;
                 lengths_behind := (ht.2 - winner_time) / LEN_SEC |}) updated in
    mret (winner_time, out) in
  match timed with
  | Raised e => (Raised e, records_state)
  | Returned (winner_time, out) =>
      let fastest_ok := bool_decide (condition = fastest_condition (race_surface race)) in
      let '((record_broken, new_rec), records_state) :=
        if fastest_ok then
          update_if_broken records_state (race_course_code race) (race_distance race)
                           (race_surface race) winner_time
                           (from_option horse_name "" (head out))
        else ((false, rec), records_state) in
      (Returned {| tr_runners := out; tr_winner_time := winner_time;
                   tr_record_broken := record_broken; tr_record_entry := new_rec |},
       records_state)
  end.

End Reporting.

(** ** A sample platform

    Small stand-ins for the interpreter's services, used to run the model
    on concrete inputs: a polynomial string hash, a linear congruential
    generator, a shuffle that reverses, Newton's iteration for the square
    root and low-order approximations of the other functions. *)

Definition sample_hash (s : string) : Z :=
  fold_left (fun acc c => (acc * 131 + Z.of_nat (Ascii.nat_of_ascii c)) mod 2 ^ 64)
            (String.list_ascii_of_string s) 7.

Definition lcg_next (s : Z) : Z := (1103515245 * s + 12345) mod 2 ^ 31.

Definition lcg_random (s : Z) : Q * Z :=
  let s' := lcg_next s in (Qmake s' (2 ^ 31), s').

Fixpoint newton_sqrt (n : nat) (x y : Q) : Q :=
  match n with
  | O => y
  | S n' => newton_sqrt n' x (Qred ((y + x / y) / 2))%Q
  end.

Definition sample_sqrt (x : Q) : Q :=
  if Qle_bool x 0 then 0%Q else newton_sqrt 6 x (Qred ((x + 1) / 2))%Q.

Definition sample_log (x : Q) : Q := (2 * (x - 1) / (x + 1))%Q.

Definition sample_cos (x : Q) : Q := (1 - x * x / 2 + x * x * x * x / 24)%Q.

Definition sample_pow (x y : Q) : Q := (x * (1 + y * (x - 1)))%Q.

Definition sample_platform : Platform :=
  {| blake2b_8 := sample_hash;
     mt_state := Z;
     mt_seed := fun seed => seed mod 2 ^ 31;
     mt_random := lcg_random;
     mt_shuffle := fun s l => (reverse l, lcg_next s);
     math_sqrt := sample_sqrt;
     math_log := sample_log;
     math_cos := sample_cos;
     float_pow := sample_pow;
     math_pi := 3.141592653589793%Q |}.

(** Parents of the spec's example: internals 30, externals 8. *)
Definition sample_parent : ParentHorse :=
  {| p_name := "Parent"; p_stamina := 30; p_speed := 30; p_sharp := 30; p_ac := 128;
     p_start := 8; p_corner := 8; p_oob := 8; p_competing := 8; p_tenacious := 8;
     p_spurt := 8 |}.

(** ** Predicates of the statements *)

(** Every one of the six externals lies between the floor and the ceiling. *)
Definition ext_in_range (d : Externals) : Prop :=
  forall k, MIN_V <= ext_get d k <= MAX_V.





(** ** Sample competitors *)

Definition sample_horse (i : string) (sty : Style) (a st sp sh e : Z) : Horse :=
  {| id := i; name := "Horse " +:+ i; sex := Male; style := sty; ac := a;
     internals := {| stamina := st; speed := sp; sharp := sh |};
     externals := {| start := e; corner := e + 2; oob := e + 1; competing := e;
                     tenacious := e + 3; spurt := e + 4 |};
     rating_base := None |}.

Definition horse_a : Horse := sample_horse "a" FR 40 30 34 31 20.
Definition horse_b : Horse := sample_horse "b" LS 200 36 30 29 24.
Definition horse_c : Horse := sample_horse "c" AL 255 33 33 33 28.



(** The record a race is measured against: the stored one, or the par
    entry [ensure_record] stores when the key is missing. *)
Definition record_in_force (records : gmap string RecordEntry) (race : RaceMeta)
  : RecordEntry :=
  (ensure_record records (race_course_code race) (race_distance race)
                 (race_surface race)
                 (par_time_seconds (race_distance race) (race_surface race)) "N/A").1.

(** The key of a race in the record table. *)
Definition race_key (race : RaceMeta) : string :=
  _key (race_course_code race) (race_distance race) (race_surface race).

(** The race card [timed_results] builds from the raw times, the least
    raw time and the clamped winner time. *)
Definition card_of (raw : list (Horse * Q)) (min_t winner_time : Q)
  : list RaceRunnerResult :=
  let updated :=
    map (fun ht : Horse * Q =>
           (ht.1, (winner_time + fmax 0.0 (fmin (ht.2 - min_t) 10.0))%Q)) raw in
  imap (fun i (ht : Horse * Q) =>
          {| pos := Z.of_nat i + 1;
             horse_id := id ht.1;
             horse_name := name ht.1;
             time_seconds := ht.2;
             lengths_behind := ((ht.2 - winner_time) / 0.20)%Q |})
       (sorted_asc snd updated).


(** A gate map as the spec wants it: every runner has a gate and the
    runners' gates are 1, ..., N in some order. *)
Definition gates_valid (runners : list Horse) (g : gmap string Z) : Prop :=
  (forall h, h ∈ runners -> is_Some (g !! id h)) /\
  map (gate_of g) runners ≡ₚ range1 (length runners).

Definition sample_race : RaceMeta :=
  {| race_round_num := 1; race_slot := R1; race_track := "Central City";
     race_distance := 1200; race_winner_purse := 100000; race_name := None;
     race_course_code := "CC"; race_surface := TURF |}.


Definition sample_scores : gmap string Q :=
  <["a" := 1.5%Q]> (<["b" := 0.5%Q]> (<["c" := (-0.25)%Q]> ∅)).


(** * Part II: properties of the model *)

(** ** Comparisons, minimum and maximum of floats *)

(** Division by a literal becomes multiplication by its inverse, which
    linear arithmetic understands. *)
Ltac qdiv_consts :=
  unfold Qdiv in *;
  repeat match goal with
  | |- context [Qinv ?c] =>
      is_ground c; let v := eval vm_compute in (Qinv c) in change (Qinv c) with v
  | H : context [Qinv ?c] |- _ =>
      is_ground c; let v := eval vm_compute in (Qinv c) in change (Qinv c) with v in H
  end.

Lemma Qltb_lt (x y : Q) : Qltb x y = true <-> (x < y)%Q.
Proof.
  unfold Qltb. rewrite negb_true_iff. split.
  - intros H. apply Qnot_le_lt. intros Hle. apply Qle_bool_iff in Hle. congruence.
  - intros H. destruct (Qle_bool y x) eqn:E; [|done].
    apply Qle_bool_iff in E. exfalso. by apply (Qlt_not_le x y).
Qed.

Lemma Qltb_ge (x y : Q) : Qltb x y = false <-> (y <= x)%Q.
Proof.
  unfold Qltb. rewrite negb_false_iff. apply Qle_bool_iff.
Qed.

Lemma Qleb_le (x y : Q) : Qleb x y = true <-> (x <= y)%Q.
Proof. apply Qle_bool_iff. Qed.

Lemma Qleb_gt (x y : Q) : Qleb x y = false <-> (y < x)%Q.
Proof.
  unfold Qleb. split.
  - intros H. apply Qnot_le_lt. intros Hle. apply Qle_bool_iff in Hle. congruence.
  - intros H. destruct (Qle_bool x y) eqn:E; [|done].
    apply Qle_bool_iff in E. exfalso. by apply (Qlt_not_le y x).
Qed.

Lemma Qltb_spec (x y : Q) : reflect (x < y)%Q (Qltb x y).
Proof.
  destruct (Qltb x y) eqn:E; constructor.
  - by apply Qltb_lt.
  - apply Qltb_ge in E. by apply Qle_not_lt.
Qed.

Lemma Qleb_spec (x y : Q) : reflect (x <= y)%Q (Qleb x y).
Proof.
  destruct (Qleb x y) eqn:E; constructor.
  - by apply Qleb_le.
  - apply Qleb_gt in E. by apply Qlt_not_le.
Qed.

Lemma fmin_spec (a b : Q) :
  ((b < a)%Q /\ fmin a b = b) \/ ((a <= b)%Q /\ fmin a b = a).
Proof. unfold fmin. destruct (Qltb_spec b a); [left|right]; split; try done. by apply Qnot_lt_le. Qed.

Lemma fmax_spec (a b : Q) :
  ((a < b)%Q /\ fmax a b = b) \/ ((b <= a)%Q /\ fmax a b = a).
Proof. unfold fmax. destruct (Qltb_spec a b); [left|right]; split; try done. by apply Qnot_lt_le. Qed.

Lemma fmin_le_l (a b : Q) : (fmin a b <= a)%Q.
Proof. destruct (fmin_spec a b) as [[? ->]|[? ->]]; lra. Qed.

Lemma fmin_le_r (a b : Q) : (fmin a b <= b)%Q.
Proof. destruct (fmin_spec a b) as [[? ->]|[? ->]]; lra. Qed.

Lemma fmax_ge_l (a b : Q) : (a <= fmax a b)%Q.
Proof. destruct (fmax_spec a b) as [[? ->]|[? ->]]; lra. Qed.

Lemma fmax_ge_r (a b : Q) : (b <= fmax a b)%Q.
Proof. destruct (fmax_spec a b) as [[? ->]|[? ->]]; lra. Qed.

Lemma clamp_spec (x lo hi : Q) :
  (lo <= hi)%Q -> (lo <= _clamp x lo hi <= hi)%Q.
Proof.
  intros Hle. unfold _clamp.
  destruct (Qltb_spec x lo) as [H1|H1]; [lra|].
  destruct (Qltb_spec hi x) as [H2|H2]; lra.
Qed.

(** ** The outcome monad *)

Lemma bind_Returned {A B : Type} (m : outcome A) (f : A -> outcome B) (b : B) :
  m ≫= f = Returned b <-> exists a, m = Returned a /\ f a = Returned b.
Proof.
  destruct m as [a|e]; simpl; split.
  - intros H. by exists a.
  - by intros (a' & [= <-] & H).
  - done.
  - by intros (a' & ? & _).
Qed.

Lemma fdiv_Returned (x y : Q) :
  ~ (y == 0)%Q -> fdiv x y = Returned (x / y)%Q.
Proof.
  intros Hy. unfold fdiv. destruct (Qeq_bool y 0) eqn:E; [|done].
  apply Qeq_bool_iff in E. contradiction.
Qed.

Lemma fdiv_zero (x y : Q) : (y == 0)%Q -> fdiv x y = Raised ZeroDivisionError.
Proof.
  intros Hy. unfold fdiv. apply Qeq_bool_iff in Hy. by rewrite Hy.
Qed.

(** ** The sample platform meets what the library documents *)

Lemma lcg_next_range (s : Z) : 0 <= lcg_next s < 2 ^ 31.
Proof. unfold lcg_next. apply Z.mod_pos_bound. lia. Qed.

Lemma sample_random_in_unit : random_in_unit sample_platform.
Proof.
  intros s. simpl. unfold lcg_random. cbn [fst].
  pose proof (lcg_next_range s) as [H0 H1].
  unfold Qle, Qlt. simpl. lia.
Qed.


Lemma newton_sqrt_positive (n : nat) (x y : Q) :
  (0 < x)%Q -> (0 < y)%Q -> (0 < newton_sqrt n x y)%Q.
Proof.
  revert y. induction n as [|n IH]; intros y Hx Hy; simpl; [done|].
  apply IH; [done|]. rewrite Qred_correct.
  assert (0 < x / y)%Q as Hq by (apply Qlt_shift_div_l; lra).
  revert Hq. generalize (x / y)%Q. intros q Hq. qdiv_consts. lra.
Qed.

Lemma sample_sqrt_positive : sqrt_positive sample_platform.
Proof.
  intros x Hx. simpl. unfold sample_sqrt.
  destruct (Qle_bool x 0) eqn:E.
  - apply Qle_bool_iff in E. lra.
  - apply newton_sqrt_positive; [done|]. rewrite Qred_correct. qdiv_consts. lra.
Qed.


(** * Breeding: range and cap *)

Lemma clamp_int_bounds x lo hi : lo <= hi -> lo <= clamp_int x lo hi <= hi.
Proof.
  intros Hle. unfold clamp_int.
  destruct (Z.ltb_spec x lo); [lia|].
  destruct (Z.gtb_spec x hi); lia.
Qed.

Lemma sum_ext_unfold d :
  sum_ext d = start d + corner d + oob d + competing d + tenacious d + spurt d.
Proof. unfold sum_ext, Zsum. simpl. lia. Qed.

Lemma ext_get_set_eq d k v : ext_get (ext_set d k v) k = v.
Proof. by destruct k. Qed.

Lemma ext_get_set_ne d k k' v : k <> k' -> ext_get (ext_set d k v) k' = ext_get d k'.
Proof. by destruct k, k'. Qed.

Lemma ext_set_in_range d k v :
  ext_in_range d -> MIN_V <= v <= MAX_V -> ext_in_range (ext_set d k v).
Proof.
  intros Hd Hv k'. destruct (decide (k = k')) as [->|Hne].
  - by rewrite ext_get_set_eq.
  - rewrite ext_get_set_ne by done. apply Hd.
Qed.

Lemma sum_ext_set d k v : sum_ext (ext_set d k v) = sum_ext d - ext_get d k + v.
Proof. rewrite !sum_ext_unfold. destruct k; simpl; lia. Qed.

Lemma kmax_of_max d k : ext_get d k <= ext_get d (kmax_of d).
Proof.
  unfold kmax_of. simpl.
  repeat match goal with
  | |- context [if ?a <? ?b then _ else _] =>
      lazymatch a with
      | context [if _ then _ else _] => fail
      | _ => destruct (Z.ltb_spec a b)
      end
  end; destruct k; simpl in *; lia.
Qed.

Section BreedingFacts.
Variable P : Platform.

Lemma birth_value_range sire dam t k rng :
  MIN_V <= (birth_value P sire dam t k rng).1 <= MAX_V.
Proof.
  unfold birth_value.
  repeat match goal with
  | |- context [let '(_, _) := ?e in _] => destruct e
  | |- context [if ?b then _ else _] => destruct b
  end; simpl; apply clamp_int_bounds; unfold MIN_V, MAX_V; lia.
Qed.

Lemma birth_loop_in_range sire dam t rng :
  ext_in_range (birth_loop P sire dam t rng).1.
Proof.
  unfold birth_loop.
  pose proof (birth_value_range sire dam t) as H.
  repeat match goal with
  | |- context [birth_value P sire dam t ?k ?r] =>
      let Hk := fresh in
      pose proof (H k r) as Hk; destruct (birth_value P sire dam t k r); simpl in Hk
  end.
  intros k. destruct k; simpl; lia.
Qed.

Lemma apply_cuts_in_range excess total reds d :
  ext_in_range d -> ext_in_range (apply_cuts excess total reds d).
Proof.
  unfold apply_cuts. revert d.
  induction reds as [|[k room] reds IH]; intros d Hd; simpl; [done|].
  apply IH. destruct (Z.leb_spec (py_round (inject_Z excess * (inject_Z room / inject_Z total))) 0); [done|].
  apply ext_set_in_range; [done|]. specialize (Hd k). unfold MIN_V, MAX_V in *. lia.
Qed.

Lemma proportional_in_range n cap d :
  ext_in_range d -> ext_in_range (proportional n cap d).
Proof.
  revert d. induction n as [|n IH]; intros d Hd; simpl; [done|].
  destruct (sum_ext d <=? cap); [done|].
  destruct (Zsum (map snd (reducibles d)) <=? 0); [done|].
  by apply IH, apply_cuts_in_range.
Qed.

Lemma greedy_loop_in_range fuel cap d :
  ext_in_range d -> ext_in_range (greedy_loop fuel cap d).
Proof.
  revert d. induction fuel as [|fuel IH]; intros d Hd; simpl; [done|].
  destruct (sum_ext d >? cap); [|done].
  destruct (Z.leb_spec (ext_get d (kmax_of d)) MIN_V); [done|].
  apply IH, ext_set_in_range; [done|].
  specialize (Hd (kmax_of d)). unfold MIN_V, MAX_V in *. lia.
Qed.

(** The greedy loop leaves only when its condition fails or at its
    [break]: with [sum - cap] turns of fuel it never stops short. *)
Lemma greedy_loop_exit fuel cap d :
  sum_ext d - cap <= Z.of_nat fuel ->
  let d' := greedy_loop fuel cap d in
  sum_ext d' <= cap \/ ext_get d' (kmax_of d') <= MIN_V.
Proof.
  revert d. induction fuel as [|fuel IH]; intros d Hfuel; simpl.
  - left. lia.
  - destruct (Z.gtb_spec (sum_ext d) cap); [|left; lia].
    destruct (Z.leb_spec (ext_get d (kmax_of d)) MIN_V); [by right|].
    apply IH. rewrite sum_ext_set. lia.
Qed.

Lemma greedy_exit cap d :
  let d' := greedy cap d in
  sum_ext d' <= cap \/ ext_get d' (kmax_of d') <= MIN_V.
Proof. apply greedy_loop_exit. lia. Qed.

Lemma greedy_sum_bound cap d :
  ext_in_range d -> sum_ext (greedy cap d) <= Z.max cap 48.
Proof.
  intros Hd.
  pose proof (greedy_loop_in_range (Z.to_nat (sum_ext d - cap)) cap d Hd) as Hr.
  destruct (greedy_exit cap d) as [H|H]; fold (greedy cap d) in Hr; [lia|].
  set (d' := greedy cap d) in *.
  pose proof (kmax_of_max d') as Hmax.
  rewrite sum_ext_unfold.
  pose proof (Hmax k_start); pose proof (Hmax k_corner); pose proof (Hmax k_oob).
  pose proof (Hmax k_competing); pose proof (Hmax k_tenacious); pose proof (Hmax k_spurt).
  simpl in *. unfold MIN_V in *. lia.
Qed.

Lemma compute_birth_sum_bound sire dam rng cap ts td :
  sum_ext (compute_birth_ext_8_48_from_parents P sire dam rng cap ts td).1
  <= Z.max (adjusted_cap cap (t_total_of ts td)) 48.
Proof.
  unfold compute_birth_ext_8_48_from_parents.
  pose proof (birth_loop_in_range sire dam (t_total_of ts td) rng) as H.
  destruct (birth_loop P sire dam (t_total_of ts td) rng) as [out rng'].
  cbn [fst] in *.
  by apply greedy_sum_bound, proportional_in_range.
Qed.

Lemma compute_birth_in_range sire dam rng cap ts td :
  ext_in_range (compute_birth_ext_8_48_from_parents P sire dam rng cap ts td).1.
Proof.
  unfold compute_birth_ext_8_48_from_parents.
  pose proof (birth_loop_in_range sire dam (t_total_of ts td) rng) as H.
  destruct (birth_loop P sire dam (t_total_of ts td) rng) as [out rng'].
  cbn [fst] in *.
  by apply greedy_loop_in_range, proportional_in_range.
Qed.

End BreedingFacts.

(** C4. Every breeding call, whatever the parents, the generator, the cap
    and the token counts, returns six externals that each lie in the
    closed range from 8 to 48. *)
Theorem birth_externals_within_8_48 (P : Platform) (sire dam : ParentHorse)
    (rng : mt_state P) (cap_sum genetic_tokens_sire genetic_tokens_dam : Z) :
  let out := (compute_birth_ext_8_48_from_parents
                P sire dam rng cap_sum genetic_tokens_sire genetic_tokens_dam).1 in
  forall k : ExternalKey, 8 <= ext_get out k <= 48.
Proof.
  intros out k.
  apply (compute_birth_in_range P sire dam rng cap_sum
           genetic_tokens_sire genetic_tokens_dam k).
Qed.

(** C3, counterexample. With a cap of 40 and no tokens the adjusted cap is
    40, below six times the floor: the call returns six stats of 8, whose
    sum 48 exceeds the cap. *)
Lemma birth_cap_below_floor_exceeded :
  let out := (compute_birth_ext_8_48_from_parents
                sample_platform sample_parent sample_parent
                (RNG sample_platform 42) 40 0 0).1 in
  adjusted_cap 40 (t_total_of 0 0) = 40 /\
  sum_ext out = 48 /\
  ~ sum_ext out <= adjusted_cap 40 (t_total_of 0 0).
Proof.
  vm_compute. split; [reflexivity|]. split; [reflexivity|].
  intros H. apply H. reflexivity.
Qed.

(** C3, amended. The sum of the six externals is at most the larger of the
    token-adjusted cap and 48 (six stats at the floor): it is at most the
    cap whenever the cap is at least 48.  The reduction never takes a stat
    below 8. *)
Theorem birth_sum_capped_above_floor (P : Platform) (sire dam : ParentHorse)
    (rng : mt_state P) (cap_sum genetic_tokens_sire genetic_tokens_dam : Z) :
  let out := (compute_birth_ext_8_48_from_parents
                P sire dam rng cap_sum genetic_tokens_sire genetic_tokens_dam).1 in
  let cap := adjusted_cap cap_sum (t_total_of genetic_tokens_sire genetic_tokens_dam) in
  sum_ext out <= Z.max cap 48 /\
  (48 <= cap -> sum_ext out <= cap) /\
  forall k : ExternalKey, 8 <= ext_get out k.
Proof.
  intros out cap.
  pose proof (compute_birth_sum_bound P sire dam rng cap_sum
                genetic_tokens_sire genetic_tokens_dam) as Hsum.
  fold out cap in Hsum.
  split; [done|]. split; [lia|].
  intros k.
  apply (compute_birth_in_range P sire dam rng cap_sum
           genetic_tokens_sire genetic_tokens_dam k).
Qed.


(** ** Ratings *)

Section RatingFacts.
Variable P : Platform.
Hypothesis Hsqrt : sqrt_positive P.

Lemma sd_of_positive (var : Q) : (0 < sd_of P var)%Q.
Proof.
  unfold sd_of. destruct (Qltb_spec 1e-9 var) as [H|H].
  - apply Hsqrt. qdiv_consts. lra.
  - lra.
Qed.

Lemma compute_pool_int_stats_sd_positive (horses : list Horse) :
  (0 < (compute_pool_int_stats P horses).2)%Q.
Proof. unfold compute_pool_int_stats. cbn [snd]. apply sd_of_positive. Qed.

Lemma compute_rating_returns (h : Horse) (mu sd : Q) :
  (0 < sd)%Q -> exists r : Q, compute_rating h mu sd = Returned r.
Proof.
  intros Hsd. unfold compute_rating.
  rewrite fdiv_Returned by lra. simpl. eauto.
Qed.

End RatingFacts.

(** C8. For every population (the empty one, one horse, all sums equal,
    or any other) the standard deviation that [compute_pool_int_stats]
    returns is strictly positive, so [compute_rating] against these
    statistics never divides by zero and returns a rating, for any horse.
    The square root is only assumed positive on positive arguments. *)
Theorem pool_sd_positive_rating_defined (P : Platform) (Hsqrt : sqrt_positive P)
    (horses : list Horse) (h : Horse) :
  let stats := compute_pool_int_stats P horses in
  (0 < stats.2)%Q /\
  exists r : Q, compute_rating h stats.1 stats.2 = Returned r.
Proof.
  intros stats.
  pose proof (compute_pool_int_stats_sd_positive P Hsqrt horses) as Hsd.
  split; [done|]. by apply compute_rating_returns.
Qed.

(** The degenerate populations get the substitute deviation 1.0. *)
Lemma sd_of_small_variance (P : Platform) (var : Q) :
  (var <= 1e-9)%Q -> sd_of P var = 1.0%Q.
Proof.
  intros H. unfold sd_of. destruct (Qltb_spec 1e-9 var); [|done].
  qdiv_consts. lra.
Qed.


(** ** Python lists and dicts *)

Lemma py_index_Returned (len : nat) (k : Z) (i : nat) :
  py_index len k = Returned i -> (i < len)%nat.
Proof.
  unfold py_index.
  destruct (Z.leb_spec 0 k), (Z.ltb_spec k (Z.of_nat len)); simpl;
    try (intros [= <-]; lia);
    destruct (Z.leb_spec (- Z.of_nat len) k), (Z.ltb_spec k 0); simpl;
    try done; intros [= <-]; lia.
Qed.

Lemma py_index_in_range (len : nat) (k : Z) :
  0 <= k < Z.of_nat len -> py_index len k = Returned (Z.to_nat k).
Proof.
  intros [H0 H1]. unfold py_index.
  destruct (Z.leb_spec 0 k); [|lia]. destruct (Z.ltb_spec k (Z.of_nat len)); [done|lia].
Qed.

Lemma py_getitem_Returned {A : Type} (l : list A) (k : Z) (x : A) :
  py_getitem l k = Returned x ->
  exists i, py_index (length l) k = Returned i /\ l !! i = Some x.
Proof.
  unfold py_getitem. intros H. apply bind_Returned in H as (i & Hi & H).
  exists i. split; [done|]. destruct (l !! i); by inversion H.
Qed.

Lemma py_getitem_in_range {A : Type} (l : list A) (k : Z) :
  0 <= k < Z.of_nat (length l) -> exists x, py_getitem l k = Returned x.
Proof.
  intros Hk. unfold py_getitem. rewrite py_index_in_range by done. simpl.
  destruct (lookup_lt_is_Some_2 l (Z.to_nat k)) as [x ->]; [lia|]. eauto.
Qed.

Lemma py_setitem_Returned {A : Type} (l l' : list A) (k : Z) (v : A) :
  py_setitem l k v = Returned l' ->
  exists i, py_index (length l) k = Returned i /\ l' = <[i := v]> l.
Proof.
  unfold py_setitem. intros H. apply bind_Returned in H as (i & Hi & H).
  exists i. split; [done|]. by inversion H.
Qed.

Lemma insert_head_Permutation {A : Type} (l : list A) (j : nat) (a y : A) :
  l !! j = Some y -> y :: <[j := a]> l ≡ₚ a :: l.
Proof.
  revert j. induction l as [|b l IH]; intros [|j] H; simplify_eq/=.
  - apply perm_swap.
  - rewrite perm_swap. rewrite (IH j H). apply perm_swap.
Qed.

(** Exchanging two stored items permutes the list. *)
Lemma swap_Permutation {A : Type} (l : list A) (i j : nat) (x y : A) :
  l !! i = Some x -> l !! j = Some y ->
  <[j := x]> (<[i := y]> l) ≡ₚ l.
Proof.
  revert i j. induction l as [|a l IH]; intros [|i] [|j] Hi Hj; simplify_eq/=.
  - done.
  - by apply insert_head_Permutation.
  - by apply insert_head_Permutation.
  - f_equiv. by apply IH.
Qed.

Lemma dict_of_pairs_fold {V : Type} (kvs : list (string * V)) (m : gmap string V) :
  fold_left (fun m kv => <[kv.1 := kv.2]> m) kvs m
  = list_to_map (reverse kvs) ∪ m.
Proof.
  revert m. induction kvs as [|[k v] kvs IH]; intros m; simpl.
  - by rewrite (left_id_L ∅ (∪)).
  - rewrite IH, reverse_cons, list_to_map_app. simpl.
    rewrite <- (assoc_L (∪)). f_equal.
    rewrite insert_empty, <- insert_union_singleton_l. done.
Qed.

Lemma dict_of_pairs_list_to_map {V : Type} (kvs : list (string * V)) :
  dict_of_pairs kvs = list_to_map (reverse kvs).
Proof. unfold dict_of_pairs. rewrite dict_of_pairs_fold. by rewrite (right_id_L ∅ (∪)). Qed.

(** The last pair of a key is the one a lookup finds. *)
Lemma dict_of_pairs_snoc {V : Type} (kvs : list (string * V)) (k : string) (v : V) :
  dict_of_pairs (kvs ++ [(k, v)]) = <[k := v]> (dict_of_pairs kvs).
Proof. unfold dict_of_pairs. by rewrite fold_left_app. Qed.

Lemma dict_of_pairs_dom {V : Type} (kvs : list (string * V)) :
  dom (dict_of_pairs kvs) = list_to_set (kvs.*1).
Proof.
  rewrite dict_of_pairs_list_to_map, dom_list_to_map_L, fmap_reverse.
  apply set_eq. intros x. rewrite !elem_of_list_to_set, elem_of_reverse. done.
Qed.

Lemma dict_of_pairs_lookup_NoDup {V : Type} (kvs : list (string * V)) (k : string) (v : V) :
  NoDup (kvs.*1) -> (k, v) ∈ kvs -> dict_of_pairs kvs !! k = Some v.
Proof.
  intros Hnd Hin. rewrite dict_of_pairs_list_to_map.
  apply elem_of_list_to_map_1.
  - rewrite fmap_reverse. by rewrite reverse_Permutation.
  - by apply elem_of_reverse.
Qed.

Lemma dict_of_pairs_values_NoDup {V : Type} (kvs : list (string * V)) :
  NoDup (kvs.*1) -> (map_to_list (dict_of_pairs kvs)).*2 ≡ₚ kvs.*2.
Proof.
  intros Hnd. rewrite dict_of_pairs_list_to_map.
  rewrite map_to_list_to_map.
  - by rewrite reverse_Permutation.
  - rewrite fmap_reverse. by rewrite reverse_Permutation.
Qed.

(** ** The gate draw *)

Lemma range1_length (n : nat) : length (range1 n) = n.
Proof. unfold range1. by rewrite length_map, length_seq. Qed.

Lemma elem_of_range1 (n : nat) (g : Z) : g ∈ range1 n <-> 1 <= g <= Z.of_nat n.
Proof.
  unfold range1. rewrite list_elem_of_fmap. split.
  - intros (k & -> & Hk). apply elem_of_seq in Hk. lia.
  - intros Hg. exists (Z.to_nat (g - 1)). split; [lia|]. apply elem_of_seq. lia.
Qed.

(** [int(u * n)] for [u] in [[0, 1)] is an index below [n]. *)
Lemma py_int_unit_index (u : Q) (n : Z) :
  (0 <= u)%Q -> (u < 1)%Q -> 1 <= n -> 0 <= py_int (u * inject_Z n) < n.
Proof.
  intros H0 H1 Hn.
  assert (0 < inject_Z n)%Q as Hpos.
  { change 0%Q with (inject_Z 0). rewrite <- Zlt_Qlt. lia. }
  assert (0 <= u * inject_Z n)%Q as Hge by (apply Qmult_le_0_compat; lra).
  assert (u * inject_Z n < inject_Z n)%Q as Hlt.
  { rewrite <- (Qmult_1_l (inject_Z n)) at 2. by apply Qmult_lt_r. }
  unfold py_int. apply Qle_bool_iff in Hge as Hb. rewrite Hb.
  split.
  - change 0 with (Qfloor (inject_Z 0)). by apply Qfloor_resp_le.
  - rewrite Zlt_Qlt. eapply Qle_lt_trans; [apply Qfloor_le|done].
Qed.

Section GateFacts.
Variable P : Platform.

Lemma gate_shuffle_Permutation (i : nat) (gates g' : list Z) (rng : mt_state P) :
  gate_shuffle P i gates rng = Returned g' -> g' ≡ₚ gates.
Proof.
  revert gates rng. induction i as [|i IH]; intros gates rng H.
  - simpl in H. by inversion H.
  - cbn [gate_shuffle] in H. destruct (rng_random P rng) as [u rng'].
    apply bind_Returned in H as (gj & Hgj & H).
    apply bind_Returned in H as (gi & Hgi & H).
    apply bind_Returned in H as (gates1 & Hs1 & H).
    apply bind_Returned in H as (gates2 & Hs2 & H).
    apply IH in H. rewrite H.
    apply py_getitem_Returned in Hgj as (a & Ha & Hla).
    apply py_getitem_Returned in Hgi as (b & Hb & Hlb).
    apply py_setitem_Returned in Hs1 as (b' & Hb' & ->).
    apply py_setitem_Returned in Hs2 as (a' & Ha' & ->).
    rewrite length_insert in Ha'. rewrite Ha in Ha'. rewrite Hb in Hb'.
    simplify_eq.
    by apply swap_Permutation.
Qed.

Lemma gate_shuffle_returns (i : nat) (gates : list Z) (rng : mt_state P) :
  random_in_unit P -> (i <= length gates - 1)%nat ->
  exists g', gate_shuffle P i gates rng = Returned g'.
Proof.
  intros Hrng. revert gates rng. induction i as [|i IH]; intros gates rng Hi.
  - simpl. eauto.
  - cbn [gate_shuffle].
    pose proof (Hrng rng) as [Hu0 Hu1]. unfold rng_random.
    destruct (mt_random P rng) as [u rng']. cbn [fst] in *.
    set (j := py_int (u * inject_Z (Z.of_nat (S i) + 1))).
    assert (0 <= j < Z.of_nat (S i) + 1) as Hj
      by (apply py_int_unit_index; [done|done|lia]).
    destruct (py_getitem_in_range gates j) as [gj Hgj]; [lia|].
    destruct (py_getitem_in_range gates (Z.of_nat (S i))) as [gi Hgi]; [lia|].
    rewrite Hgj, Hgi. simpl.
    unfold py_setitem. rewrite py_index_in_range by lia. simpl.
    rewrite length_insert, py_index_in_range by lia. simpl.
    apply IH. rewrite !length_insert. lia.
Qed.

Lemma draw_gates_Returned seed meet_iter race_meta condition runners m :
  draw_gates P seed meet_iter race_meta condition runners = Returned m ->
  exists gates, gates ≡ₚ range1 (length runners) /\
                m = dict_of_pairs (zip (map id runners) gates).
Proof.
  unfold draw_gates. intros H. apply bind_Returned in H as (gates & Hg & H).
  exists gates. split; [by apply gate_shuffle_Permutation in Hg|]. by inversion H.
Qed.

Lemma draw_gates_returns seed meet_iter race_meta condition runners :
  random_in_unit P ->
  exists m, draw_gates P seed meet_iter race_meta condition runners = Returned m.
Proof.
  intros Hrng. unfold draw_gates.
  edestruct (gate_shuffle_returns (length (range1 (length runners)) - 1)
               (range1 (length runners))) as [g' Hg']; [done|done|].
  rewrite Hg'. simpl. eauto.
Qed.

End GateFacts.

(** C5. With a generator whose [random()] lies in [[0, 1)], [draw_gates]
    on N competitors of distinct ids returns a mapping whose keys are the
    competitors' ids, that gives every competitor a gate between 1 and N,
    and whose gates, counted with multiplicity, are exactly 1, ..., N. *)
Theorem draw_gates_is_permutation (P : Platform) (Hrng : random_in_unit P)
    (seed meet_iter : Z) (race_meta : RaceMeta) (condition : Condition)
    (runners : list Horse) (Hids : NoDup (map id runners)) :
  exists m : gmap string Z,
    draw_gates P seed meet_iter race_meta condition runners = Returned m /\
    dom m = list_to_set (map id runners) /\
    (forall h, h ∈ runners ->
       exists g, m !! id h = Some g /\ 1 <= g <= Z.of_nat (length runners)) /\
    (map_to_list m).*2 ≡ₚ range1 (length runners).
Proof.
  destruct (draw_gates_returns P seed meet_iter race_meta condition runners Hrng)
    as [m Hm].
  exists m. split; [done|].
  apply draw_gates_Returned in Hm as (gates & Hperm & ->).
  assert (length gates = length runners) as Hlen.
  { by rewrite Hperm, range1_length. }
  assert ((zip (map id runners) gates).*1 = map id runners) as Hfst.
  { apply fst_zip. rewrite length_map. lia. }
  assert ((zip (map id runners) gates).*2 = gates) as Hsnd.
  { apply snd_zip. rewrite length_map. lia. }
  split; [|split].
  - by rewrite dict_of_pairs_dom, Hfst.
  - intros h Hh.
    apply list_elem_of_lookup in Hh as [k Hk].
    destruct (lookup_lt_is_Some_2 gates k) as [g Hg].
    { apply lookup_lt_Some in Hk. lia. }
    exists g. split.
    + apply dict_of_pairs_lookup_NoDup; [by rewrite Hfst|].
      apply list_elem_of_lookup. exists k.
      apply lookup_zip_with_Some. exists (id h), g.
      by rewrite list_lookup_fmap, Hk.
    + apply elem_of_range1. rewrite <- Hperm. by eapply list_elem_of_lookup_2.
  - rewrite dict_of_pairs_values_NoDup by (by rewrite Hfst).
    by rewrite Hsnd.
Qed.


(** ** Field selection *)





Lemma omap_length_le {A B : Type} (f : A -> option B) (l : list A) :
  (length (omap f l) <= length l)%nat.
Proof.
  induction l as [|a l IH]; [done|]. csimpl.
  destruct (f a); simpl; [by apply le_n_S|by apply Nat.le_le_succ_r].
Qed.



Section FieldFacts.
Variable P : Platform.


Lemma select_cpu_field_missing_slot seed pool slot iter fs shift st :
  pool_used_by_slot pool !! slot = None ->
  select_cpu_field P seed pool slot iter fs shift st = (Raised KeyError, st).
Proof. intros Hl. unfold select_cpu_field. by rewrite Hl. Qed.

End FieldFacts.


Section FieldTheorems.
Variable P : Platform.


End FieldTheorems.





(** ** Sorting by a float key *)

Lemma insert_by_Permutation {A : Type} (before : A -> A -> bool) (x : A) (l : list A) :
  insert_by before x l ≡ₚ x :: l.
Proof.
  induction l as [|y l IH]; simpl; [done|].
  destruct (before x y); [done|]. rewrite IH. apply perm_swap.
Qed.

Lemma sort_by_Permutation {A : Type} (before : A -> A -> bool) (l : list A) :
  sort_by before l ≡ₚ l.
Proof.
  unfold sort_by. induction l as [|x l IH]; simpl; [done|].
  by rewrite insert_by_Permutation, IH.
Qed.

Lemma sorted_asc_Permutation {A : Type} (key : A -> Q) (l : list A) :
  sorted_asc key l ≡ₚ l.
Proof. apply sort_by_Permutation. Qed.

Lemma sorted_desc_Permutation {A : Type} (key : A -> Q) (l : list A) :
  sorted_desc key l ≡ₚ l.
Proof. apply sort_by_Permutation. Qed.

Section InsertSorted.
Context {A : Type} (key : A -> Q).

Let asc (x y : A) : Prop := (key x <= key y)%Q.

Lemma insert_asc_sorted (x : A) (l : list A) :
  StronglySorted asc l ->
  StronglySorted asc (insert_by (fun x y => Qleb (key x) (key y)) x l).
Proof.
  induction l as [|y l IH]; intros Hs; simpl.
  - by repeat constructor.
  - apply StronglySorted_inv in Hs as [Hs Hy].
    destruct (Qleb_spec (key x) (key y)) as [Hle|Hgt].
    + constructor; [by constructor|]. constructor; [done|].
      eapply Forall_impl; [exact Hy|]. intros z Hz. unfold asc in *. lra.
    + constructor; [by apply IH|].
      rewrite insert_by_Permutation. constructor; [|done].
      unfold asc. apply Qnot_le_lt in Hgt. lra.
Qed.

Lemma sorted_asc_sorted (l : list A) : StronglySorted asc (sorted_asc key l).
Proof.
  unfold sorted_asc, sort_by. induction l as [|x l IH]; simpl; [constructor|].
  by apply insert_asc_sorted.
Qed.

Let desc (x y : A) : Prop := (key y <= key x)%Q.

Lemma insert_desc_sorted (x : A) (l : list A) :
  StronglySorted desc l ->
  StronglySorted desc (insert_by (fun x y => Qleb (key y) (key x)) x l).
Proof.
  induction l as [|y l IH]; intros Hs; simpl.
  - by repeat constructor.
  - apply StronglySorted_inv in Hs as [Hs Hy].
    destruct (Qleb_spec (key y) (key x)) as [Hle|Hgt].
    + constructor; [by constructor|]. constructor; [done|].
      eapply Forall_impl; [exact Hy|]. intros z Hz. unfold desc in *. lra.
    + constructor; [by apply IH|].
      rewrite insert_by_Permutation. constructor; [|done].
      unfold desc. apply Qnot_le_lt in Hgt. lra.
Qed.

Lemma sorted_desc_sorted (l : list A) : StronglySorted desc (sorted_desc key l).
Proof.
  unfold sorted_desc, sort_by. induction l as [|x l IH]; simpl; [constructor|].
  by apply insert_desc_sorted.
Qed.

End InsertSorted.

(** ** [min] over a list of floats *)

Lemma fold_fmin_spec (l : list Q) (x : Q) :
  let m := fold_left fmin l x in
  (m <= x)%Q /\ Forall (fun y => (m <= y)%Q) l /\ (m = x \/ m ∈ l).
Proof.
  revert x. induction l as [|y l IH]; intros x; simpl.
  - split; [lra|]. split; [constructor|by left].
  - destruct (IH (fmin x y)) as (H1 & H2 & H3).
    pose proof (fmin_le_l x y). pose proof (fmin_le_r x y).
    split; [lra|]. split.
    + constructor; [lra|done].
    + destruct H3 as [H3|H3]; [|right; by right].
      rewrite H3. unfold fmin. destruct (Qltb y x); [right; by left|by left].
Qed.

Lemma py_min_spec (l : list Q) :
  l <> [] ->
  exists m, py_min l = Returned m /\ m ∈ l /\ Forall (fun y => (m <= y)%Q) l.
Proof.
  destruct l as [|x l]; [done|]. intros _. simpl.
  destruct (fold_fmin_spec l x) as (H1 & H2 & H3).
  eexists. split; [done|]. split.
  - destruct H3 as [->|H3]; [by left|by right].
  - by constructor.
Qed.

Lemma py_min_empty : py_min [] = Raised ValueError.
Proof. done. Qed.

(** ** [mapM] in the outcome monad *)

Lemma mapM_Returned {A B : Type} (f : A -> outcome B) (g : A -> B) (l : list A) :
  (forall x, x ∈ l -> f x = Returned (g x)) -> mapM f l = Returned (map g l).
Proof.
  induction l as [|x l IH]; intros H; simpl; [done|].
  rewrite (H x) by (by left). simpl.
  rewrite IH by (intros y Hy; apply H; by right). done.
Qed.

Lemma mapM_Raised_head {A B : Type} (f : A -> outcome B) (x : A) (l : list A) (e : exn) :
  f x = Raised e -> mapM f (x :: l) = Raised e.
Proof. intros H. simpl. by rewrite H. Qed.


(** ** The record table *)

Lemma ensure_record_spec (records : gmap string RecordEntry) cc d s t holder :
  let r := ensure_record records cc d s t holder in
  r.2 !! _key cc d s = Some r.1 /\
  (forall k, k <> _key cc d s -> r.2 !! k = records !! k) /\
  (forall old, records !! _key cc d s = Some old -> r = (old, records)) /\
  (records !! _key cc d s = None ->
   r = ({| rec_time_seconds := t; rec_holder := holder |},
        <[_key cc d s := {| rec_time_seconds := t; rec_holder := holder |}]> records)).
Proof.
  unfold ensure_record. destruct (records !! _key cc d s) as [old|] eqn:E; simpl.
  - split; [done|]. split; [done|]. split; [by intros ? [= ->]|done].
  - split; [by rewrite lookup_insert_eq|]. split; [|done].
    intros k Hk. by rewrite lookup_insert_ne.
Qed.

Lemma update_if_broken_spec (records : gmap string RecordEntry) cc d s t holder old :
  records !! _key cc d s = Some old ->
  let r := update_if_broken records cc d s t holder in
  (forall k, k <> _key cc d s -> r.2 !! k = records !! k) /\
  ((t < rec_time_seconds old - EPS_BREAK)%Q /\ r.1.1 = true /\
     r.1.2 = {| rec_time_seconds := t; rec_holder := holder |} /\
     r.2 !! _key cc d s = Some {| rec_time_seconds := t; rec_holder := holder |}
   \/
   (rec_time_seconds old - EPS_BREAK <= t)%Q /\ r = ((false, old), records)).
Proof.
  intros Hold. unfold update_if_broken. rewrite Hold.
  destruct (Qltb_spec t (rec_time_seconds old - EPS_BREAK)%Q) as [Hlt|Hge]; simpl.
  - split; [intros k Hk; by rewrite lookup_insert_ne|].
    left. by rewrite lookup_insert_eq.
  - split; [done|]. right. split; [|done]. by apply Qnot_lt_le.
Qed.

(** ** Positions and times of a race card *)

Lemma Forall_imap {A B : Type} (Q : B -> Prop) (f : nat -> A -> B) (l : list A) :
  (forall i x, l !! i = Some x -> Q (f i x)) -> Forall Q (imap f l).
Proof.
  intros H. apply Forall_lookup. intros i y Hy.
  rewrite list_lookup_imap in Hy.
  destruct (l !! i) as [x|] eqn:E; simplify_eq/=. by apply H.
Qed.

Lemma imap_positions {A : Type} (l : list A) :
  imap (fun i (_ : A) => Z.of_nat i + 1) l = range1 (length l).
Proof.
  apply list_eq. intros i. unfold range1.
  rewrite list_lookup_imap, list_lookup_fmap.
  destruct (l !! i) as [x|] eqn:E; simpl.
  - rewrite lookup_seq_lt; [done|]. by eapply lookup_lt_Some.
  - rewrite lookup_seq_ge; [done|]. by apply lookup_ge_None.
Qed.

Section ReportingFacts.
Variable P : Platform.

(** With a non-empty finish order and a positive deviation the call
    returns; its parts are named here. *)
Lemma timed_results_success race condition finish scores records :
  sqrt_positive P -> finish <> [] ->
  let rec := record_in_force records race in
  let recs1 :=
    (ensure_record records (race_course_code race) (race_distance race)
                   (race_surface race)
                   (par_time_seconds (race_distance race) (race_surface race)) "N/A").2 in
  exists (raw : list (Horse * Q)) (min_t : Q),
    map fst raw = finish /\
    min_t ∈ map snd raw /\
    Forall (fun t => (min_t <= t)%Q) (map snd raw) /\
    let w := fmax (rec_time_seconds rec - 0.25)
                  (fmin min_t (rec_time_seconds rec + 8.00))%Q in
    let out := card_of raw min_t w in
    timed_results P race condition finish scores records =
    let r :=
      if bool_decide (condition = fastest_condition (race_surface race)) then
        update_if_broken recs1 (race_course_code race) (race_distance race)
                         (race_surface race) w (from_option horse_name "" (head out))
      else ((false, rec), recs1) in
    (Returned {| tr_runners := out; tr_winner_time := w;
                 tr_record_broken := r.1.1; tr_record_entry := r.1.2 |}, r.2).
Proof.
  intros Hsqrt Hne rec recs1. unfold timed_results.
  unfold rec, recs1, record_in_force.
  destruct (ensure_record _ _ _ _ _ _) as [rec0 recs0] eqn:Hens. cbn [fst snd].
  set (sc := map _ finish).
  set (mu := mean_of sc). set (var := variance_of sc mu). set (sd := sd_of P var).
  assert (0 < sd)%Q as Hsd by apply (sd_of_positive P Hsqrt).
  set (base := ((rec_time_seconds rec0 + 2.00 + _) * _)%Q).
  set (raw := map (fun h => (h, (base - 0.55 * ((default mu (scores !! id h) - mu) / sd))%Q))
                  finish).
  rewrite (mapM_Returned _
             (fun h => (h, (base - 0.55 * ((default mu (scores !! id h) - mu) / sd))%Q))).
  2:{ intros h _. rewrite fdiv_Returned by lra. done. }
  fold raw. cbn [mbind outcome_bind].
  destruct (py_min_spec (map snd raw)) as (min_t & Hmin & Hin & Hall).
  { unfold raw. destruct finish; [done|]. done. }
  rewrite Hmin. cbn [mbind outcome_bind mret outcome_ret].
  exists raw, min_t. split.
  { unfold raw. rewrite map_map. simpl. apply map_id. }
  split; [done|]. split; [done|].
  cbv zeta. unfold card_of.
  destruct (bool_decide (condition = fastest_condition (race_surface race))).
  - by destruct (update_if_broken _ _ _ _ _ _) as [[rb nr] recs2].
  - done.
Qed.

Lemma timed_results_empty race condition scores records :
  timed_results P race condition [] scores records =
  (Raised ValueError,
   (ensure_record records (race_course_code race) (race_distance race)
                  (race_surface race)
                  (par_time_seconds (race_distance race) (race_surface race)) "N/A").2).
Proof.
  unfold timed_results. by destruct (ensure_record _ _ _ _ _ _) as [rec0 recs0].
Qed.

End ReportingFacts.

(** ** The race card *)

Lemma gap_clamped (t min_t : Q) :
  (0 <= fmax 0.0 (fmin (t - min_t) 10.0) <= 10)%Q.
Proof.
  destruct (fmax_spec 0.0 (fmin (t - min_t) 10.0)) as [[H ->]|[H ->]];
    pose proof (fmin_le_r (t - min_t) 10.0); lra.
Qed.

Lemma gap_of_least (min_t : Q) :
  (fmax 0.0 (fmin (min_t - min_t) 10.0) == 0)%Q.
Proof.
  destruct (fmax_spec 0.0 (fmin (min_t - min_t) 10.0)) as [[H ->]|[H ->]]; [|lra].
  pose proof (fmin_le_l (min_t - min_t) 10.0). lra.
Qed.

Lemma card_of_positions raw min_t w :
  map pos (card_of raw min_t w) = range1 (length raw).
Proof.
  unfold card_of. set (srt := sorted_asc snd _).
  assert (length srt = length raw) as <-.
  { unfold srt. rewrite sorted_asc_Permutation. by rewrite length_map. }
  rewrite <- imap_positions. apply list_eq. intros i.
  rewrite list_lookup_fmap, !list_lookup_imap. by destruct (srt !! i).
Qed.

Lemma card_of_times raw min_t w :
  map time_seconds (card_of raw min_t w)
  = map snd (sorted_asc snd
               (map (fun ht : Horse * Q =>
                       (ht.1, (w + fmax 0.0 (fmin (ht.2 - min_t) 10.0))%Q)) raw)).
Proof.
  unfold card_of. apply list_eq. intros i.
  rewrite !list_lookup_fmap, list_lookup_imap. by destruct (_ !! i).
Qed.

Lemma card_of_sorted raw min_t w :
  StronglySorted Qle (map time_seconds (card_of raw min_t w)).
Proof.
  rewrite card_of_times.
  eapply StronglySorted_fmap; [|apply (sorted_asc_sorted snd)]. done.
Qed.

Lemma card_of_bounds raw min_t w :
  Forall (fun r => (w <= time_seconds r <= w + 10.0)%Q /\
                   (0 <= lengths_behind r <= 50)%Q)
         (card_of raw min_t w).
Proof.
  unfold card_of. apply Forall_imap. intros i [h t] Hi. simpl.
  apply list_elem_of_lookup_2 in Hi.
  rewrite sorted_asc_Permutation in Hi.
  apply list_elem_of_fmap in Hi as ([h0 t0] & [= -> ->] & _). simpl.
  pose proof (gap_clamped t0 min_t) as Hgap.
  revert Hgap. generalize (fmax 0.0 (fmin (t0 - min_t) 10.0)). intros g Hgap.
  qdiv_consts. split; lra.
Qed.

Lemma card_of_head raw min_t w :
  min_t ∈ map snd raw ->
  exists first, head (card_of raw min_t w) = Some first /\
                (time_seconds first == w)%Q /\ (lengths_behind first == 0)%Q /\
                pos first = 1.
Proof.
  intros Hmin.
  set (upd := map (fun ht : Horse * Q =>
                     (ht.1, (w + fmax 0.0 (fmin (ht.2 - min_t) 10.0))%Q)) raw).
  assert (exists e, e ∈ sorted_asc snd upd /\ (e.2 == w)%Q) as (e & He & Hew).
  { apply list_elem_of_fmap in Hmin as ([h t] & Ht & Hin). simpl in Ht. subst t.
    eexists (h, _). split.
    - rewrite sorted_asc_Permutation. unfold upd.
      apply list_elem_of_fmap. exists (h, min_t). split; [reflexivity|done].
    - simpl. rewrite gap_of_least. lra. }
  pose proof (sorted_asc_sorted snd upd) as Hsorted.
  assert (Forall (fun e' => (w <= e'.2)%Q) (sorted_asc snd upd)) as Hge.
  { rewrite sorted_asc_Permutation. unfold upd. apply Forall_fmap, Forall_forall.
    intros [h t] _. simpl. pose proof (gap_clamped t min_t). lra. }
  unfold card_of. fold upd.
  destruct (sorted_asc snd upd) as [|[h1 t1] rest] eqn:Hs.
  { by apply elem_of_nil in He. }
  simpl. eexists. split; [reflexivity|]. simpl.
  apply StronglySorted_inv in Hsorted as [_ Hfirst].
  apply Forall_cons in Hge as [Hge1 _]. simpl in Hge1.
  assert (t1 <= w)%Q as Hle.
  { apply elem_of_cons in He as [->|He]; [simpl in Hew; lra|].
    rewrite Forall_forall in Hfirst. specialize (Hfirst e He). simpl in Hfirst. lra. }
  assert (t1 == w)%Q as Heq by lra.
  split; [done|]. split; [|done]. rewrite Heq. qdiv_consts. lra.
Qed.

(** C10. With a positive square root and a non-empty finish order
    [timed_results] returns a card that numbers the runners 1, 2, ... in
    this order, sorted by time in nondecreasing order; the runner in
    position 1 has the reported winner time and 0 lengths behind; every
    runner's time is at least the winner time and at most 10 seconds more,
    and its lengths behind lie between 0 and 50. *)
Theorem timed_results_card_shape (P : Platform) (Hsqrt : sqrt_positive P)
    (race : RaceMeta) (condition : Condition) (finish_order : list Horse)
    (scores : gmap string Q) (records_state : gmap string RecordEntry)
    (Hne : finish_order <> []) :
  exists tr : TimedRace,
    (timed_results P race condition finish_order scores records_state).1 = Returned tr /\
    map pos (tr_runners tr) = range1 (length finish_order) /\
    StronglySorted Qle (map time_seconds (tr_runners tr)) /\
    (exists first, head (tr_runners tr) = Some first /\ pos first = 1 /\
                   (time_seconds first == tr_winner_time tr)%Q /\
                   (lengths_behind first == 0)%Q) /\
    Forall (fun r => (tr_winner_time tr <= time_seconds r <= tr_winner_time tr + 10.0)%Q /\
                     (0 <= lengths_behind r <= 50)%Q)
           (tr_runners tr).
Proof.
  destruct (timed_results_success P race condition finish_order scores records_state
              Hsqrt Hne) as (raw & min_t & Hraw & Hmin & Hall & Heq).
  cbv zeta in Heq. rewrite Heq. eexists. split; [reflexivity|]. cbn [tr_runners tr_winner_time].
  split; [|split; [|split]].
  - rewrite card_of_positions. by rewrite <- Hraw, length_map.
  - apply card_of_sorted.
  - match goal with |- context [card_of raw min_t ?w] =>
      destruct (card_of_head raw min_t w Hmin) as (first & Hh & Ht & Hl & Hp)
    end.
    eauto 10.
  - apply card_of_bounds.
Qed.

(** ** The record table across a call of [timed_results] *)

Section RecordFacts.
Variable P : Platform.

(** Whatever the inputs, the call either raises after [ensure_record], or
    returns after the one conditional [update_if_broken]. *)
Lemma timed_results_cases race condition finish scores records :
  let rec := record_in_force records race in
  let recs1 :=
    (ensure_record records (race_course_code race) (race_distance race)
                   (race_surface race)
                   (par_time_seconds (race_distance race) (race_surface race)) "N/A").2 in
  (exists e, timed_results P race condition finish scores records = (Raised e, recs1)) \/
  (exists (w : Q) (out : list RaceRunnerResult),
     timed_results P race condition finish scores records =
     let r :=
       if bool_decide (condition = fastest_condition (race_surface race)) then
         update_if_broken recs1 (race_course_code race) (race_distance race)
                          (race_surface race) w (from_option horse_name "" (head out))
       else ((false, rec), recs1) in
     (Returned {| tr_runners := out; tr_winner_time := w;
                  tr_record_broken := r.1.1; tr_record_entry := r.1.2 |}, r.2)).
Proof.
  intros rec recs1. unfold timed_results, rec, recs1, record_in_force.
  destruct (ensure_record _ _ _ _ _ _) as [rec0 recs0] eqn:Hens. cbn [fst snd].
  destruct (mapM _ finish) as [raw|e]; cbn [mbind outcome_bind]; [|left; eauto].
  destruct (py_min (map snd raw)) as [m|e]; cbn [mbind outcome_bind mret outcome_ret];
    [|left; eauto].
  right.
  exists (fmax (rec_time_seconds rec0 - 0.25) (fmin m (rec_time_seconds rec0 + 8.00)))%Q.
  eexists. cbv zeta.
  destruct (bool_decide (condition = fastest_condition (race_surface race))).
  - destruct (update_if_broken _ _ _ _ _ _) as [[rb nr] recs2] eqn:E.
    rewrite E. reflexivity.
  - reflexivity.
Qed.

End RecordFacts.

(** C6. Across any call of [timed_results], on any record table, the
    record stored for the race's key afterwards is never slower than the
    record in force before (the stored one, or the par time when the key
    was missing).  It differs from it only if the condition is the fastest
    one of the surface (GOOD on turf, SOFT on dirt), the call returned, and
    the winner time, which becomes the record, is below the old record by
    more than the margin [EPS_BREAK]. *)
Theorem record_only_lowered_when_fastest (P : Platform) (race : RaceMeta)
    (condition : Condition) (finish_order : list Horse) (scores : gmap string Q)
    (records_state : gmap string RecordEntry) :
  let before := record_in_force records_state race in
  let r := timed_results P race condition finish_order scores records_state in
  (forall old, records_state !! race_key race = Some old -> before = old) /\
  exists after : RecordEntry,
    r.2 !! race_key race = Some after /\
    (rec_time_seconds after <= rec_time_seconds before)%Q /\
    (after <> before ->
     condition = fastest_condition (race_surface race) /\
     exists tr, r.1 = Returned tr /\
                rec_time_seconds after = tr_winner_time tr /\
                (tr_winner_time tr < rec_time_seconds before - EPS_BREAK)%Q).
Proof.
  intros before r.
  pose proof (ensure_record_spec records_state (race_course_code race)
                (race_distance race) (race_surface race)
                (par_time_seconds (race_distance race) (race_surface race)) "N/A")
    as (Hkey & _ & Hold & _). cbv zeta in Hkey, Hold.
  fold (record_in_force records_state race) in Hkey. fold before in Hkey.
  split.
  { intros old Ho. unfold before, record_in_force. by rewrite (Hold old Ho). }
  destruct (timed_results_cases P race condition finish_order scores records_state)
    as [[e He]|(w & out & He)]; unfold r; rewrite He; clear He.
  - exists before. split; [done|]. split; [lra|done].
  - cbv zeta. fold before.
    destruct (bool_decide_reflect (condition = fastest_condition (race_surface race)))
      as [Hfast|Hslow]; cbn [fst snd].
    + set (holder := from_option horse_name "" (head out)).
      destruct (update_if_broken_spec _ (race_course_code race) (race_distance race)
                  (race_surface race) w holder before Hkey)
        as (_ & [(Hlt & Hrb & Hnr & Hlook)|(Hge & Hsame)]); cbv zeta in *.
      * eexists. split; [exact Hlook|]. cbn [rec_time_seconds].
        unfold EPS_BREAK in *. split; [lra|]. intros _. split; [done|].
        eexists. split; [reflexivity|]. done.
      * rewrite Hsame. cbn [fst snd]. exists before. split; [done|]. split; [lra|done].
    + exists before. split; [done|]. split; [lra|done].
Qed.


(** ** The race simulator *)

Lemma sort_by_ext {A : Type} (b1 b2 : A -> A -> bool) (l : list A) :
  (forall x y, x ∈ l -> y ∈ l -> b1 x y = b2 x y) -> sort_by b1 l = sort_by b2 l.
Proof.
  induction l as [|x l IH]; intros H; [done|].
  change (insert_by b1 x (sort_by b1 l) = insert_by b2 x (sort_by b2 l)).
  rewrite IH by (intros; apply H; by right).
  assert (forall k, (forall y, y ∈ k -> y ∈ l) ->
                    insert_by b1 x k = insert_by b2 x k) as Hins.
  { induction k as [|y k IHk]; intros Hk; simpl; [done|].
    rewrite (H x y) by (try (by left); right; apply Hk; by left).
    rewrite IHk by (intros; apply Hk; by right). done. }
  apply Hins. intros y Hy. by rewrite sort_by_Permutation in Hy.
Qed.

Lemma sorted_desc_ext {A : Type} (k1 k2 : A -> Q) (l : list A) :
  (forall x, x ∈ l -> k1 x = k2 x) -> sorted_desc k1 l = sorted_desc k2 l.
Proof.
  intros H. apply sort_by_ext. intros x y Hx Hy. by rewrite (H x Hx), (H y Hy).
Qed.

Section RaceSimFacts.
Variable P : Platform.

(** The simulation reads the gate map only through the runners' gates. *)
Lemma race_with_gates_ext seed meet_iter race_meta condition runners g g' :
  (forall h, h ∈ runners -> gate_of g h = gate_of g' h) ->
  let r := race_with_gates P seed meet_iter race_meta condition runners g in
  let r' := race_with_gates P seed meet_iter race_meta condition runners g' in
  sim_scores r = sim_scores r' /\ sim_finish_order r = sim_finish_order r' /\
  sim_payouts r = sim_payouts r' /\ sim_payouts_by_pos r = sim_payouts_by_pos r'.
Proof.
  intros Hg. unfold race_with_gates.
  destruct (distance_profile (race_distance race_meta)) as [[sprint mile] stayer].
  cbv zeta. cbn [sim_scores sim_finish_order sim_payouts sim_payouts_by_pos].
  set (base := race_base_seed P seed meet_iter race_meta condition).
  set (n := Z.of_nat (length runners)).
  set (ph := fun (gm : gmap string Z) (h : Horse) =>
               _early_mid_late_base P h sprint mile stayer (gate_of gm h) n
                 (race_surface race_meta) (horse_rng P base h)).
  assert (forall h, h ∈ runners -> ph g h = ph g' h) as Hph.
  { intros h Hh. unfold ph. by rewrite (Hg h Hh). }
  assert (map (fun h => (id h, ph g h)) runners = map (fun h => (id h, ph g' h)) runners)
    as Hphases.
  { apply list_fmap_ext. intros i h Hh. rewrite Hph; [done|].
    by eapply list_elem_of_lookup_2. }
  assert (map (fun h => (ph g h).1.1) runners = map (fun h => (ph g' h).1.1) runners)
    as Hpots.
  { apply list_fmap_ext. intros i h Hh. rewrite Hph; [done|].
    by eapply list_elem_of_lookup_2. }
  change (map (fun h => (id h, _early_mid_late_base P h sprint mile stayer (gate_of g h) n
                                 (race_surface race_meta) (horse_rng P base h))) runners)
    with (map (fun h => (id h, ph g h)) runners).
  change (map (fun h => (id h, _early_mid_late_base P h sprint mile stayer (gate_of g' h) n
                                 (race_surface race_meta) (horse_rng P base h))) runners)
    with (map (fun h => (id h, ph g' h)) runners).
  change (map (fun h => (_early_mid_late_base P h sprint mile stayer (gate_of g h) n
                           (race_surface race_meta) (horse_rng P base h)).1.1) runners)
    with (map (fun h => (ph g h).1.1) runners).
  change (map (fun h => (_early_mid_late_base P h sprint mile stayer (gate_of g' h) n
                           (race_surface race_meta) (horse_rng P base h)).1.1) runners)
    with (map (fun h => (ph g' h).1.1) runners).
  rewrite Hphases, Hpots.
  set (phase_by_id := dict_of_pairs (map (fun h => (id h, ph g' h)) runners)).
  set (pace_hot := _pace_hotness P _).
  set (early_rank := dict_of_pairs (imap _ _)).
  set (sc := fun (gm : gmap string Z) (h : Horse) =>
               runner_score P base sprint mile stayer (_condition_heaviness condition)
                 pace_hot (race_surface race_meta) condition (gate_of gm h)
                 (default 6 (early_rank !! id h)) (phase_at phase_by_id h) h).
  assert (map (fun h => (id h, sc g h)) runners = map (fun h => (id h, sc g' h)) runners)
    as Hscores.
  { apply list_fmap_ext. intros i h Hh. unfold sc. rewrite (Hg h); [done|].
    by eapply list_elem_of_lookup_2. }
  change (map (fun h => (id h, runner_score P base sprint mile stayer
                                 (_condition_heaviness condition) pace_hot
                                 (race_surface race_meta) condition (gate_of g h)
                                 (default 6 (early_rank !! id h))
                                 (phase_at phase_by_id h) h)) runners)
    with (map (fun h => (id h, sc g h)) runners).
  change (map (fun h => (id h, runner_score P base sprint mile stayer
                                 (_condition_heaviness condition) pace_hot
                                 (race_surface race_meta) condition (gate_of g' h)
                                 (default 6 (early_rank !! id h))
                                 (phase_at phase_by_id h) h)) runners)
    with (map (fun h => (id h, sc g' h)) runners).
  rewrite Hscores. done.
Qed.

End RaceSimFacts.

Lemma dict_of_pairs_covers {V : Type} (f : Horse -> V) (runners : list Horse) (h : Horse) :
  h ∈ runners -> is_Some (dict_of_pairs (map (fun h => (id h, f h)) runners) !! id h).
Proof.
  intros Hh. apply elem_of_dom. rewrite dict_of_pairs_dom.
  apply elem_of_list_to_set. rewrite <- list_fmap_compose.
  apply list_elem_of_fmap. by exists h.
Qed.

Section RaceSimTheorems.
Variable P : Platform.

(** Every runner has a score, and the finish order is the field,
    rearranged and sorted by score from the highest down. *)
Lemma race_with_gates_shape seed meet_iter race_meta condition runners g :
  let r := race_with_gates P seed meet_iter race_meta condition runners g in
  sim_finish_order r ≡ₚ runners /\
  dom (sim_scores r) = list_to_set (map id runners) /\
  StronglySorted (fun a b => (score_at (sim_scores r) b <= score_at (sim_scores r) a)%Q)
                 (sim_finish_order r) /\
  sim_gates r = g.
Proof.
  unfold race_with_gates.
  destruct (distance_profile (race_distance race_meta)) as [[sprint mile] stayer].
  cbv zeta. cbn [sim_scores sim_finish_order sim_gates].
  split; [apply sorted_desc_Permutation|]. split.
  - rewrite dict_of_pairs_dom. by rewrite <- list_fmap_compose.
  - split; [|done]. apply (sorted_desc_sorted (score_at _)).
Qed.

Lemma run_race_sim_with_gates seed meet_iter race_meta condition player cpu11 g :
  run_race_sim P seed meet_iter race_meta condition player cpu11 (Some g)
  = Returned (race_with_gates P seed meet_iter race_meta condition (player :: cpu11) g).
Proof. done. Qed.

Lemma run_race_sim_without_gates seed meet_iter race_meta condition player cpu11 :
  run_race_sim P seed meet_iter race_meta condition player cpu11 None
  = g ← draw_gates P seed meet_iter race_meta condition (player :: cpu11);
    run_race_sim P seed meet_iter race_meta condition player cpu11 (Some g).
Proof. unfold run_race_sim. by destruct (draw_gates _ _ _ _ _ _). Qed.

End RaceSimTheorems.


(** C7, counterexample. An empty gate map covers no runner, yet the
    simulator returns a result for the two runners. *)
Lemma run_race_sim_accepts_empty_gate_map :
  ~ gates_valid [horse_a; horse_b] ∅ /\
  exists r, run_race_sim sample_platform 42 1 sample_race GOOD horse_a [horse_b] (Some ∅)
            = Returned r /\
            length (sim_finish_order r) = 2%nat.
Proof.
  split.
  - intros [Hcover _]. destruct (Hcover horse_a) as [g Hg]; [by left|].
    by rewrite lookup_empty in Hg.
  - eexists. split; [apply run_race_sim_with_gates|].
    destruct (race_with_gates_shape sample_platform 42 1 sample_race GOOD
                [horse_a; horse_b] ∅) as (Hperm & _).
    by rewrite Hperm.
Qed.

(** C7, amended. The simulator validates nothing.  Given any gate map
    (whether or not it covers the runners or is a permutation) and any list
    of opponents (also the empty one, the field then being the player
    alone), it returns a result: every runner is scored and placed, and a
    runner the map misses runs from gate 1, the result being the one for
    the map completed with gate 1. *)
Theorem run_race_sim_never_rejects (P : Platform) (seed meet_iter : Z)
    (race_meta : RaceMeta) (condition : Condition) (player : Horse)
    (cpu11 : list Horse) (g : gmap string Z) :
  let runners := player :: cpu11 in
  let patched :=
    fold_left (fun m h => if decide (is_Some (m !! id h)) then m else <[id h := 1]> m)
              runners g in
  exists r r',
    run_race_sim P seed meet_iter race_meta condition player cpu11 (Some g) = Returned r /\
    run_race_sim P seed meet_iter race_meta condition player cpu11 (Some patched)
    = Returned r' /\
    sim_finish_order r ≡ₚ runners /\
    dom (sim_scores r) = list_to_set (map id runners) /\
    (forall h, h ∈ runners -> is_Some (patched !! id h)) /\
    sim_scores r = sim_scores r' /\ sim_finish_order r = sim_finish_order r'.
Proof.
  intros runners patched. rewrite !run_race_sim_with_gates. fold runners.
  eexists _, _. split; [reflexivity|]. split; [reflexivity|].
  destruct (race_with_gates_shape P seed meet_iter race_meta condition runners g)
    as (Hperm & Hdom & _).
  split; [done|]. split; [done|].
  assert (forall (l : list Horse) (m : gmap string Z),
            let m' := fold_left (fun m h => if decide (is_Some (m !! id h)) then m
                                            else <[id h := 1]> m) l m in
            (forall k v, m !! k = Some v -> m' !! k = Some v) /\
            (forall k, m !! k = None -> m' !! k = None \/ m' !! k = Some 1) /\
            (forall h, h ∈ l -> is_Some (m' !! id h))) as Hfold.
  { induction l as [|h l IH]; intros m; simpl.
    - split; [done|]. split; [by left|]. intros h Hh. by apply elem_of_nil in Hh.
    - destruct (decide (is_Some (m !! id h))) as [Hs|Hn].
      + destruct (IH m) as (H1 & H2 & H3). split; [done|]. split; [done|].
        intros h' [->|Hh']%elem_of_cons; [|by apply H3].
        destruct Hs as [v Hv]. rewrite (H1 _ _ Hv). eauto.
      + destruct (IH (<[id h := 1]> m)) as (H1 & H2 & H3). split; [|split].
        * intros k v Hk. apply H1. rewrite lookup_insert_ne; [done|].
          intros <-. apply Hn. eauto.
        * intros k Hk. destruct (decide (id h = k)) as [<-|Hne].
          -- right. apply H1. by rewrite lookup_insert_eq.
          -- apply H2. by rewrite lookup_insert_ne.
        * intros h' [->|Hh']%elem_of_cons; [|by apply H3].
          rewrite (H1 (id h) 1); [eauto|]. by rewrite lookup_insert_eq. }
  destruct (Hfold runners g) as (Hkeep & Hnew & Hall). fold patched in Hkeep, Hnew, Hall.
  split; [done|].
  destruct (race_with_gates_ext P seed meet_iter race_meta condition runners g patched)
    as (Hs & Hf & _); [|done].
  intros h Hh. unfold gate_of.
  destruct (g !! id h) as [v|] eqn:E.
  - by rewrite (Hkeep _ _ E).
  - destruct (Hnew _ E) as [->| ->]; done.
Qed.


(** ** The theorems at concrete inputs *)





Lemma sample_field_ids_NoDup : NoDup (map id [horse_a; horse_b; horse_c]).
Proof. apply (bool_decide_unpack _). by vm_compute. Qed.




Lemma draw_gates_is_permutation_witness :
  exists m : gmap string Z,
    draw_gates sample_platform 42 1 sample_race GOOD [horse_a; horse_b; horse_c]
    = Returned m /\
    dom m = list_to_set (map id [horse_a; horse_b; horse_c]) /\
    (forall h, h ∈ [horse_a; horse_b; horse_c] ->
       exists g, m !! id h = Some g /\ 1 <= g <= 3) /\
    (map_to_list m).*2 ≡ₚ range1 3.
Proof.
  exact (draw_gates_is_permutation sample_platform sample_random_in_unit 42 1
           sample_race GOOD [horse_a; horse_b; horse_c] sample_field_ids_NoDup).
Defined.

Lemma pool_sd_positive_rating_defined_witness :
  let stats := compute_pool_int_stats sample_platform [horse_a; horse_b; horse_c] in
  (0 < stats.2)%Q /\
  exists r : Q, compute_rating horse_a stats.1 stats.2 = Returned r.
Proof.
  exact (pool_sd_positive_rating_defined sample_platform sample_sqrt_positive
           [horse_a; horse_b; horse_c] horse_a).
Defined.


Lemma timed_results_card_shape_witness :
  exists tr : TimedRace,
    (timed_results sample_platform sample_race GOOD [horse_a; horse_b; horse_c]
                   sample_scores ∅).1 = Returned tr /\
    map pos (tr_runners tr) = range1 3 /\
    StronglySorted Qle (map time_seconds (tr_runners tr)) /\
    (exists first, head (tr_runners tr) = Some first /\ pos first = 1 /\
                   (time_seconds first == tr_winner_time tr)%Q /\
                   (lengths_behind first == 0)%Q) /\
    Forall (fun r => (tr_winner_time tr <= time_seconds r <= tr_winner_time tr + 10.0)%Q /\
                     (0 <= lengths_behind r <= 50)%Q)
           (tr_runners tr).
Proof.
  assert ([horse_a; horse_b; horse_c] <> []) as Hne by done.
  exact (timed_results_card_shape sample_platform sample_sqrt_positive sample_race GOOD
           [horse_a; horse_b; horse_c] sample_scores ∅ Hne).
Defined.
